(** * EchoContext Factory hooks: a shallow embedding and its properties

    The development follows the scripts of the repository:
    - [hooks/factory_notification.py]: phase classifier, message generator,
      factory-progress dispatcher and TTS fallback cascade;
    - [hooks/notification.py]: the plain hook, with its voice-enabled check,
      its announcement and its event log;
    - [hooks/voice_control.py]: the enable / disable / toggle / status utility;
    - [hooks/utils/tts/openai_tts.py]: the OpenAI backend.

    Python values that come out of [json.load] are modelled by [json];
    dictionaries are finite maps ([gmap string json]); exceptions are explicit
    ([res]); the voice-control process threads a [world] (file system, standard
    output) through an exception-and-state monad.  What the environment
    decides is an input of the model: the state of a file as a reader finds
    it, what a save does to it, what [argparse] makes of the command line,
    how a child process ends, and the random draws. *)

From Stdlib Require Import Floats.
From stdpp Require Import gmap strings list fin_maps pretty sorting.

Set Warnings "-register-all,-inexact-float".

Open Scope string_scope.
Open Scope Z_scope.

(** ** Python values *)

(** What [json.load] / [json.loads] can return.  Python keeps integers and
    floats apart; floats are IEEE doubles. *)
Inductive json : Type :=
  | JNull
  | JBool (b : bool)
  | JInt (z : Z)
  | JFloat (f : float)
  | JStr (s : string)
  | JArr (l : list json)
  | JObj (m : gmap string json).

(** Python truthiness ([if x], [not x]). *)
Definition truthy (j : json) : bool :=
  match j with
  | JNull => false
  | JBool b => b
  | JInt z => negb (z =? 0)
  | JFloat f => negb (PrimFloat.eqb f 0%float)
  | JStr s => negb (String.eqb s "")
  | JArr l => match l with [] => false | _ :: _ => true end
  | JObj m => negb (bool_decide (size m = 0%nat))
  end.

(** [type(x).__name__], as it appears in exception messages. *)
Definition type_name (j : json) : string :=
  match j with
  | JNull => "NoneType"
  | JBool _ => "bool"
  | JInt _ => "int"
  | JFloat _ => "float"
  | JStr _ => "str"
  | JArr _ => "list"
  | JObj _ => "dict"
  end.

(** [x == 'literal'] for a value [x] of unknown type. *)
Definition eq_str (j : json) (lit : string) : bool :=
  match j with
  | JStr s => String.eqb s lit
  | _ => false
  end.

(** ** Exceptions *)

(** [OSError] stands for its subclasses too ([FileNotFoundError],
    [PermissionError]).  [JSONDecodeError] and [UnicodeDecodeError] are the two
    subclasses of [ValueError] that loading a JSON file raises. *)
Inductive exn : Type :=
  | SystemExit (code : Z)
  | AttributeError (msg : string)
  | TypeError (msg : string)
  | OSError (msg : string)
  | JSONDecodeError (msg : string)
  | UnicodeDecodeError (msg : string).

(** [except ValueError] and [except (json.JSONDecodeError, ValueError)]. *)
Definition is_ValueError (e : exn) : bool :=
  match e with
  | JSONDecodeError _ | UnicodeDecodeError _ => true
  | _ => false
  end.

(** [except Exception] catches everything here but [SystemExit]. *)
Definition is_Exception (e : exn) : bool :=
  match e with
  | SystemExit _ => false
  | AttributeError _ | TypeError _ | OSError _ | JSONDecodeError _
  | UnicodeDecodeError _ => true
  end.

(** [str(e)]. *)
Definition exn_text (e : exn) : string :=
  match e with
  | SystemExit code => pretty code
  | AttributeError msg | TypeError msg | OSError msg | JSONDecodeError msg
  | UnicodeDecodeError msg => msg
  end.

Inductive res (A : Type) : Type :=
  | Ok (a : A)
  | Raise (e : exn).
Arguments Ok {A} a.
Arguments Raise {A} e.

#[global] Instance res_ret : MRet res := λ A a, Ok a.
#[global] Instance res_bind : MBind res := λ A B f m,
  match m with
  | Ok a => f a
  | Raise e => Raise e
  end.

Definition no_attribute (j : json) (attr : string) : exn :=
  AttributeError ("'" ++ type_name j ++ "' object has no attribute '" ++ attr ++ "'").

(** [try: m except Exception: handler]. *)
Definition try_except {A : Type} (m : res A) (handler : res A) : res A :=
  match m with
  | Ok a => Ok a
  | Raise e => if is_Exception e then handler else Raise e
  end.

(** [obj.get(key, default)]: only dictionaries have [get]. *)
Definition py_get (obj : json) (key : string) (dflt : json) : res json :=
  match obj with
  | JObj m => Ok (default dflt (m !! key))
  | _ => Raise (no_attribute obj "get")
  end.

(** [for x in obj]: the sequence a [for] loop walks through.  A dictionary
    yields its keys, a string its characters, a number is not iterable. *)
Definition py_iter (obj : json) : res (list json) :=
  match obj with
  | JArr l => Ok l
  | JObj m => Ok (JStr <$> (map_to_list m).*1)
  | JStr s => Ok ((λ c, JStr (String c EmptyString)) <$> String.list_ascii_of_string s)
  | _ => Raise (TypeError ("'" ++ type_name obj ++ "' object is not iterable"))
  end.

(** ** Strings *)

(** Python [str] values are kept as their UTF-8 bytes, so that the emoji of
    the source are the four-byte sequences the literals below hold.  UTF-8 is
    self-synchronising: [pat in s] on code points is substring search on
    bytes. *)

(** [pat in s]. *)
Fixpoint str_in (pat s : string) : bool :=
  if String.prefix pat s then true
  else match s with
       | EmptyString => false
       | String _ s' => str_in pat s'
       end.

(** [str.lower] and [str.strip] are Unicode-aware library methods; the
    development is parametric in them.  The only law used is that the empty
    string has no letters to lower. *)
Class StrOps : Type := {
  str_lower : string → string;
  str_strip : string → string;
  str_lower_empty : str_lower "" = ""
}.

(** [x.lower()] for a value of unknown type. *)
Definition py_lower `{StrOps} (j : json) : res string :=
  match j with
  | JStr s => Ok (str_lower s)
  | _ => Raise (no_attribute j "lower")
  end.

(** The methods on ASCII text, for running the model on concrete inputs:
    [A-Z] are lowered, every other byte (digits, punctuation, the bytes of an
    emoji) is left alone; [strip] removes the ASCII white space Python
    removes. *)
Definition ascii_lower_char (c : Ascii.ascii) : Ascii.ascii :=
  let n := Ascii.nat_of_ascii c in
  if ((65 <=? n)%nat && (n <=? 90)%nat)%bool then Ascii.ascii_of_nat (n + 32) else c.

Fixpoint ascii_lower (s : string) : string :=
  match s with
  | EmptyString => EmptyString
  | String c s' => String (ascii_lower_char c) (ascii_lower s')
  end.

Definition ascii_space (c : Ascii.ascii) : bool :=
  let n := Ascii.nat_of_ascii c in
  ((n =? 32)%nat || ((9 <=? n)%nat && (n <=? 13)%nat)
   || ((28 <=? n)%nat && (n <=? 31)%nat))%bool.

Fixpoint ascii_lstrip (s : string) : string :=
  match s with
  | EmptyString => EmptyString
  | String c s' => if ascii_space c then ascii_lstrip s' else s
  end.

Fixpoint ascii_rstrip (s : string) : string :=
  match s with
  | EmptyString => EmptyString
  | String c s' =>
      match ascii_rstrip s' with
      | EmptyString => if ascii_space c then EmptyString else String c EmptyString
      | r => String c r
      end
  end.

Definition ascii_ops : StrOps :=
  {| str_lower := ascii_lower;
     str_strip := λ s, ascii_rstrip (ascii_lstrip s);
     str_lower_empty := eq_refl |}.

(** ** The process environment *)

(** State of a JSON file ([~/.claude/config/factory.json], the notification
    log) as a reader finds it. *)
Inductive file_state : Type :=
  | Missing                       (* the path does not exist *)
  | Unreadable (err : string)     (* the file is there, [open] (or the read) raises
                                     an [OSError] with text [err] *)
  | Malformed (err : string)      (* [json.load] raises [JSONDecodeError] *)
  | Parsed (config : json)        (* [json.load] returns [config] *)
  | Undecodable (err : string)    (* the bytes are not UTF-8: the read inside
                                     [json.load] raises [UnicodeDecodeError] *)
  | Inaccessible (err : string).  (* the path cannot be examined ([stat] fails with
                                     a permission error, as under a directory
                                     that may not be searched) *)

(** [os.path.exists(path)]: false whenever [stat] fails. *)
Definition path_exists (f : file_state) : bool :=
  match f with
  | Missing | Inaccessible _ => false
  | Unreadable _ | Malformed _ | Parsed _ | Undecodable _ => true
  end.

(** [Path(path).exists()]: false for a path that is not there, but an error
    of [stat] other than that is raised ([PermissionError], an [OSError]). *)
Definition Path_exists (f : file_state) : res bool :=
  match f with
  | Inaccessible err => Raise (OSError err)
  | _ => Ok (path_exists f)
  end.

(** [with open(path, 'r') as f: json.load(f)]. *)
Definition json_load_file (f : file_state) : res json :=
  match f with
  | Missing => Raise (OSError "[Errno 2] No such file or directory")
  | Unreadable err => Raise (OSError err)
  | Malformed err => Raise (JSONDecodeError err)
  | Parsed config => Ok config
  | Undecodable err => Raise (UnicodeDecodeError err)
  | Inaccessible err => Raise (OSError err)
  end.

(** What becomes of [with open(path, 'w') as f: json.dump(value, f, indent=2)].
    Opening a file for writing empties it, so a failure after the open leaves
    the file with what had been written by then. *)
Inductive save_result : Type :=
  | Saved                                  (* written and closed *)
  | OpenFailed (err : string)              (* [open] raises: the file is as it was *)
  | WriteFailed (err : string) (remains : file_state).
                                           (* opened, then the dump or the close
                                              raises: the file holds [remains] *)

(** What [parser.parse_args()] makes of the command line: it returns the
    flags, or rejects the command line (usage and error on standard error,
    [SystemExit(2)]), or answers [-h] with the help text on standard output
    and [SystemExit(0)]. *)
Inductive parse_result : Type :=
  | Accepted
  | Rejected
  | HelpShown (text : list string).

(** The three backend scripts of [hooks/utils/tts/]. *)
Inductive tts_script : Type :=
  | elevenlabs_tts
  | openai_tts
  | pyttsx3_tts.

(** What [subprocess.run(["uv", "run", script, message], timeout=..., check=True)]
    does: the child exits with a return code, the timeout expires, or the
    child cannot be started ([FileNotFoundError], an [OSError]). *)
Inductive run_result : Type :=
  | Exited (returncode : Z)
  | TimedOut
  | LaunchFailed.

(** The [random] module: the value [random.random()] returns and the index
    [random.choice] draws for a sequence of a given length. *)
Record rng : Type := {
  random : float;
  randbelow : nat → nat
}.

Definition rng_ok (r : rng) : Prop := ∀ n : nat, (0 < n)%nat → (randbelow r n < n)%nat.

(** [random.choice(seq)] for a non-empty [seq]. *)
Definition choice (r : rng) (seq : list string) : string :=
  default "" (seq !! randbelow r (length seq)).

Record world : Type := {
  environ : gmap string string;             (* [os.environ], after [load_dotenv] *)
  home : string;                            (* [Path.home()] *)
  config_file : file_state;                 (* the factory configuration *)
  config_save : save_result;                (* what writing the configuration does *)
  tts_script_exists : tts_script → bool;    (* [script.exists()]; were the check to
                                               raise, the hooks would invoke nothing,
                                               as when it answers no for every script *)
  subprocess_run : tts_script → string → run_result;
  stdin : option json;                      (* [json.loads(sys.stdin.read())], if it parses *)
  random_source : rng;
  stdout : list string                      (* lines printed so far *)
}.

(** [os.getenv(name)] as a condition: set and not empty. *)
Definition getenv_set (w : world) (name : string) : bool :=
  match environ w !! name with
  | Some v => negb (String.eqb v "")
  | None => false
  end.

(** ** [hooks/factory_notification.py] *)

Module factory_notification.

Definition get_tts_script_path (w : world) : option tts_script :=
  if getenv_set w "ELEVENLABS_API_KEY" && tts_script_exists w elevenlabs_tts
  then Some elevenlabs_tts
  else if getenv_set w "OPENAI_API_KEY" && tts_script_exists w openai_tts
  then Some openai_tts
  else if tts_script_exists w pyttsx3_tts
  then Some pyttsx3_tts
  else None.

Definition phase_patterns : list (Z * list string) :=
  [ (1, ["🏁 phase 1"; "system verification"; "voice greeting"; "welcome message"]);
    (2, ["🤔 phase 2"; "question engine"; "project discovery"; "interactive interview"]);
    (3, ["🧠 phase 3"; "context assembly"; "automated research"; "tech stack analysis"]);
    (4, ["📝 phase 4"; "generate project files"; "claude.md"; "prd.md"; "tasks.md"]);
    (5, ["🎉 phase 5"; "voice celebration"; "project completion"; "final success"]) ].

(** The two nested [for] loops of [detect_factory_phase]: the first phase, in
    dictionary order, one of whose patterns occurs in the text. *)
Fixpoint first_phase (content_lower : string) (items : list (Z * list string)) : option Z :=
  match items with
  | [] => None
  | (phase, patterns) :: rest =>
      if existsb (λ pattern, str_in pattern content_lower) patterns
      then Some phase
      else first_phase content_lower rest
  end.

Definition detect_factory_phase `{StrOps} (todo_content : string) : option Z :=
  if String.eqb todo_content "" then None
  else
    let content_lower := str_lower todo_content in
    first_phase content_lower phase_patterns.

Record pools : Type := {
  generic : list string;
  personal : list string
}.

Definition completion_messages : list string :=
  [ "EchoContext Factory operation complete! Your project is ready for acceleration!";
    "Quantum context assembly successful! Speed enhances understanding - ready to build!";
    "Factory mission accomplished! Your AI amplifier is now supercharged!";
    "Context engineering complete! Time to transform ideas into reality!";
    "Factory optimization finished! Your consciousness catalyst awaits deployment!" ].

Definition personal_completion_messages (n : string) : list string :=
  [ "Amazing work, " ++ n ++ "! Your EchoContext Factory has created the perfect setup!";
    "Brilliant, " ++ n ++ "! Your project context is now optimized for maximum acceleration!";
    "Outstanding, " ++ n ++ "! The factory has generated a comprehensive development blueprint!";
    "Exceptional results, " ++ n ++ "! Your AI collaborator is now fully contextualized!";
    "Perfect execution, " ++ n ++ "! Your Scientific Mediator approach has created excellence!" ].

Definition phase_messages (n : string) : list (Z * pools) :=
  [ (1, {| generic :=
            [ "EchoContext Factory activated - preparing quantum setup";
              "Factory systems online - initializing consciousness bridge";
              "Welcome to acceleration mode - factory components verified";
              "Quantum context assembly initiated - all systems operational" ];
          personal :=
            [ "Hey " ++ n ++ ", EchoContext Factory is spinning up for maximum speed!";
              n ++ ", your consciousness catalyst is activating - let's accelerate!";
              "Speed mode engaged, " ++ n ++ " - factory ready for your brilliance!";
              n ++ ", your AI amplifier is online and ready to optimize!" ] |});
    (2, {| generic :=
            [ "Interview engine online - ready for intelligence gathering";
              "Question framework activated - preparing comprehensive analysis";
              "Project discovery mode engaged - optimizing context collection";
              "Smart interview system ready - initiating knowledge extraction" ];
          personal :=
            [ n ++ ", interview mode activated - time to gather your project vision!";
              "Ready for your input, " ++ n ++ " - let's build the perfect context!";
              n ++ ", question engine online - your Scientific Mediator skills needed!";
              "Speed up the discovery, " ++ n ++ " - factory is ready for your requirements!" ] |});
    (3, {| generic :=
            [ "Tech stack analysis in progress - optimizing architecture";
              "Context assembly engaged - building comprehensive framework";
              "Pattern matching active - identifying optimal solutions";
              "Technology optimization running - crafting perfect setup" ];
          personal :=
            [ n ++ ", tech stack optimization in progress - creating your ideal setup!";
              "Analyzing patterns for you, " ++ n ++ " - building the perfect architecture!";
              n ++ ", context assembly engaged - your vision is taking shape!";
              "Speed optimization active, " ++ n ++ " - crafting your development blueprint!" ] |});
    (4, {| generic :=
            [ "File generation commencing - creating comprehensive context";
              "Template processing active - building project foundation";
              "Document assembly in progress - generating development blueprint";
              "Context materialization engaged - creating your project framework" ];
          personal :=
            [ n ++ ", file generation in progress - your comprehensive context is materializing!";
              "Creating your project foundation, " ++ n ++ " - documents are being optimized!";
              n ++ ", context assembly nearly complete - your blueprint is taking form!";
              "Almost there, " ++ n ++ " - generating your perfect development framework!" ] |});
    (5, {| generic :=
            [ "Final optimizations in progress - preparing project completion";
              "Quality assurance active - verifying context completeness";
              "Project finalization engaged - ensuring excellence standards";
              "Completion protocols running - validating factory output" ];
          personal :=
            [ n ++ ", final touches in progress - your project setup is almost perfect!";
              "Quality checks running, " ++ n ++ " - ensuring your context meets excellence standards!";
              n ++ ", completion protocols active - your factory output is being validated!";
              "Almost finished, " ++ n ++ " - your AI collaborator is being finalized!" ] |}) ].

(** An f-string prints [None] as the text [None]. *)
Definition name_text (engineer_name : option string) : string :=
  default "None" engineer_name.

Definition name_truthy (engineer_name : option string) : bool :=
  match engineer_name with
  | Some s => negb (String.eqb s "")
  | None => false
  end.

(** [engineer_name and random.random() < 0.7]. *)
Definition use_name (r : rng) (engineer_name : option string) : bool :=
  name_truthy engineer_name && PrimFloat.ltb (random r) 0.7%float.

Definition get_factory_message (r : rng) (phase : Z) (engineer_name : option string)
    (is_completed : bool) : option string :=
  let n := name_text engineer_name in
  if is_completed && (phase =? 5) then
    if use_name r engineer_name
    then Some (choice r (personal_completion_messages n))
    else Some (choice r completion_messages)
  else
    match (list_to_map (phase_messages n) : gmap Z pools) !! phase with
    | None => None
    | Some messages =>
        if use_name r engineer_name
        then Some (choice r (personal messages))
        else Some (choice r (generic messages))
    end.

Definition factory_keywords : list string :=
  [ "phase 1"; "phase 2"; "phase 3"; "phase 4"; "phase 5";
    "context engineering factory"; "project discovery"; "automated research";
    "generate project files"; "voice celebration"; "🏁"; "🤔"; "🧠"; "📝"; "🎉" ].

(** [any(keyword in content for keyword in factory_keywords)]. *)
Definition is_factory_todo (content : string) : bool :=
  existsb (λ keyword, str_in keyword content) factory_keywords.

(** What [should_announce_factory_progress] returns:
    [(should_announce, phase, is_completed)]. *)
Definition decision : Type := bool * option Z * option bool.

(** One pass through the body of [for todo in todos]: [Some d] when the body
    executes [return d], [None] when it falls through to the next item. *)
Definition todo_body `{StrOps} (todo : json) : res (option decision) :=
  c ← py_get todo "content" (JStr "");
  content ← py_lower c;
  status ← py_get todo "status" (JStr "");
  if is_factory_todo content then
    match detect_factory_phase content with
    | Some phase =>
        if negb (phase =? 0) then
          let is_completed := eq_str status "completed" in
          if is_completed && (phase =? 5)
          then Ok (Some (true, Some phase, Some is_completed))
          else if eq_str status "in_progress" && (phase <? 5)
          then Ok (Some (true, Some phase, Some false))
          else Ok None
        else Ok None
    | None => Ok None
    end
  else Ok None.

Fixpoint todos_loop `{StrOps} (todos : list json) : res decision :=
  match todos with
  | [] => Ok (false, None, None)
  | todo :: rest =>
      r ← todo_body todo;
      match r with
      | Some d => Ok d
      | None => todos_loop rest
      end
  end.

Definition should_announce_factory_progress `{StrOps} (input_data : json) : res decision :=
  tool_name ← py_get input_data "tool_name" (JStr "");
  if negb (eq_str tool_name "TodoWrite") then Ok (false, None, None)
  else
    tool_input ← py_get input_data "tool_input" (JObj ∅);
    todos ← py_get tool_input "todos" (JArr []);
    if negb (truthy todos) then Ok (false, None, None)
    else
      items ← py_iter todos;
      todos_loop items.

Definition is_voice_enabled (w : world) : res json :=
  try_except
    (if negb (path_exists (config_file w)) then Ok (JBool true)
     else
       config ← json_load_file (config_file w);
       voice ← py_get config "voice" (JObj ∅);
       py_get voice "factoryNotifications" (JBool true))
    (Ok (JBool true)).

(** One [subprocess.run] call of the cascade: the script and the message. *)
Definition invocation : Type := tts_script * string.

(** The loop over [fallback_scripts]: the invocations made, in order, and how
    the loop ends.  A child that exits with 0 ends the loop ([break]); a
    non-zero exit or a timeout is caught and the loop goes on; a failure to
    start the child is not caught inside the loop. *)
Fixpoint run_fallback (w : world) (message : string) (fallback_scripts : list tts_script)
    : list invocation * res unit :=
  match fallback_scripts with
  | [] => ([], Ok ())
  | script_path :: rest =>
      match subprocess_run w script_path message with
      | Exited 0 => ([(script_path, message)], Ok ())
      | Exited _ | TimedOut =>
          let '(made, r) := run_fallback w message rest in
          ((script_path, message) :: made, r)
      | LaunchFailed =>
          ([(script_path, message)], Raise (OSError "[Errno 2] No such file or directory: 'uv'"))
      end
  end.

(** The scripts the cascade lists: those that exist, in the fixed order. *)
Definition fallback_scripts (w : world) : list tts_script :=
  filter (λ s, tts_script_exists w s = true) [elevenlabs_tts; openai_tts; pyttsx3_tts].

(** [announce_factory_progress] returns nothing and swallows every exception;
    what it does is the list of backend invocations it makes. *)
Definition announce_factory_progress `{StrOps} (w : world) : list invocation :=
  match is_voice_enabled w with
  | Raise _ => []
  | Ok enabled =>
  if negb (truthy enabled) then []
  else
    match stdin w with
    | None => []
    | Some input_data =>
    match should_announce_factory_progress input_data with
    | Raise _ => []
    | Ok (should_announce, phase, is_completed) =>
    if negb should_announce || negb (default false ((λ p, negb (p =? 0)) <$> phase)) then []
    else
      match get_tts_script_path w with
      | None => []
      | Some _ =>
      let engineer_name := str_strip (default "" (environ w !! "ENGINEER_NAME")) in
      match get_factory_message (random_source w) (default 0 phase) (Some engineer_name)
              (default false is_completed) with
      | None => []
      | Some message =>
      if String.eqb message "" then []
      else (run_fallback w message (fallback_scripts w)).1
      end
      end
    end
    end
  end.

(** [main], given what [parse_args] makes of the command line and, when it is
    accepted, the [--factory] flag: the invocations made and the exit status.
    The announcement runs only with the flag, and [sys.exit(0)] follows; the
    [SystemExit] of [parse_args] is no [Exception] and passes the handler. *)
Definition main `{StrOps} (cl : parse_result) (factory : bool) (w : world)
    : list invocation * Z :=
  match cl with
  | Rejected => ([], 2)
  | HelpShown _ => ([], 0)
  | Accepted => (if factory then announce_factory_progress w else [], 0)
  end.

End factory_notification.

(** ** [hooks/notification.py] *)

Module notification.

Definition is_voice_enabled (w : world) : res json :=
  try_except
    (found ← Path_exists (config_file w);
     if negb found then Ok (JBool true)
     else
       config ← json_load_file (config_file w);
       voice ← py_get config "voice" (JObj ∅);
       py_get voice "factoryNotifications" (JBool true))
    (Ok (JBool true)).

Definition get_tts_script_path (w : world) : option tts_script :=
  if getenv_set w "ELEVENLABS_API_KEY" && tts_script_exists w elevenlabs_tts
  then Some elevenlabs_tts
  else if getenv_set w "OPENAI_API_KEY" && tts_script_exists w openai_tts
  then Some openai_tts
  else if tts_script_exists w pyttsx3_tts
  then Some pyttsx3_tts
  else None.

Definition notification_messages : list string :=
  [ "Your cognitive enhancement system needs direction";
    "Claude requires your brilliant mind's input";
    "Time to bridge the gap - input needed";
    "Your AI collaborator seeks your wisdom";
    "Pattern recognition pause - guidance required" ].

Definition personal_messages (n : string) : list string :=
  [ n ++ ", your AI amplifier needs guidance";
    "Hey " ++ n ++ ", time to sync minds";
    n ++ ", your digital collaborator requires input";
    "Speed check, " ++ n ++ " - Claude needs direction";
    n ++ ", your consciousness catalyst awaits";
    "Bridge mode activated, " ++ n ++ " - input required";
    n ++ ", your pattern-matching partner needs you";
    "Quantum sync needed, " ++ n;
    n ++ ", your Scientific Mediator skills required";
    "Hey " ++ n ++ ", let's accelerate this process" ].

(** [announce_notification] returns nothing and swallows every exception;
    what it does is the backend invocation it makes, if any.  The call has no
    [check=True]: whatever becomes of the child, nothing else is tried. *)
Definition announce_notification `{StrOps} (w : world) : list (tts_script * string) :=
  match is_voice_enabled w with
  | Raise _ => []
  | Ok enabled =>
  if negb (truthy enabled) then []
  else
    match get_tts_script_path w with
    | None => []
    | Some tts_script =>
    let engineer_name := str_strip (default "" (environ w !! "ENGINEER_NAME")) in
    let notification_message :=
      if negb (String.eqb engineer_name "")
         && PrimFloat.ltb (random (random_source w)) 0.7%float
      then choice (random_source w) (personal_messages engineer_name)
      else choice (random_source w) notification_messages in
    [(tts_script, notification_message)]
    end
  end.

(** What [main] of the plain hook works with besides the hook's world: the
    [--notify] flag of an accepted command line and the state of
    [logs/notification.json] under the working directory. *)
Record log_world : Type := {
  hook : world;
  notify : bool;
  makedirs_error : option string;      (* error text if [logs/] cannot be created *)
  log_file : file_state;
  log_save : save_result               (* what writing the log does *)
}.

(** Reading the existing log: a file [os.path.exists] does not find and a file
    [json.load] rejects with a [ValueError] (text that is not JSON, bytes that
    are not UTF-8) give the empty list; a file that cannot be opened raises. *)
Definition read_log (f : file_state) : res json :=
  if path_exists f then
    match json_load_file f with
    | Raise e => if is_ValueError e then Ok (JArr []) else Raise e
    | Ok log_data => Ok log_data
    end
  else Ok (JArr []).

(** [log_data.append(item)]: only lists have [append]. *)
Definition py_append (log_data item : json) : res json :=
  match log_data with
  | JArr l => Ok (JArr (l ++ [item]))
  | _ => Raise (no_attribute log_data "append")
  end.

(** What a run of the hook leaves behind. *)
Record outcome : Type := {
  exit_status : Z;
  log_after : file_state;
  invocations : list (tts_script * string)
}.

(** [main], given what [parse_args] makes of the command line.  The
    [SystemExit] of [parse_args] is no [Exception]: it passes both handlers
    with its own status.  Past the parser every path ends in [sys.exit(0)]; an
    exception on the way leaves the steps after it undone, and a write that
    fails after the log was opened leaves the log with what was written. *)
Definition main `{StrOps} (cl : parse_result) (lw : log_world) : outcome :=
  let untouched :=
    {| exit_status := 0; log_after := log_file lw; invocations := [] |} in
  match cl with
  | Rejected => {| exit_status := 2; log_after := log_file lw; invocations := [] |}
  | HelpShown _ => untouched
  | Accepted =>
  match stdin (hook lw) with
  | None => untouched
  | Some input_data =>
  match makedirs_error lw with
  | Some _ => untouched
  | None =>
  match read_log (log_file lw) ≫= (λ log_data, py_append log_data input_data) with
  | Raise _ => untouched
  | Ok log_data =>
  match log_save lw with
  | OpenFailed _ => untouched
  | WriteFailed _ remains =>
      {| exit_status := 0; log_after := remains; invocations := [] |}
  | Saved =>
  let logged_only :=
    {| exit_status := 0; log_after := Parsed log_data; invocations := [] |} in
  if notify lw then
    match py_get input_data "message" JNull with
    | Raise _ => logged_only
    | Ok message =>
        if negb (eq_str message "Claude is waiting for your input")
        then {| exit_status := 0; log_after := Parsed log_data;
                invocations := announce_notification (hook lw) |}
        else logged_only
    end
  else logged_only
  end
  end
  end
  end
  end.

End notification.

(** ** [hooks/voice_control.py] *)

Module voice_control.

(** Commands of the utility: they may print, rewrite the configuration file,
    and raise. *)
Definition M (A : Type) : Type := world → res A * world.

#[global] Instance M_ret : MRet M := λ A a w, (Ok a, w).
#[global] Instance M_bind : MBind M := λ A B f m w,
  match m w with
  | (Ok a, w') => f a w'
  | (Raise e, w') => (Raise e, w')
  end.

Definition get_world : M world := λ w, (Ok w, w).

Definition raise {A : Type} (e : exn) : M A := λ w, (Raise e, w).

(** The world after more lines went to standard output. *)
Definition add_lines (w : world) (lines : list string) : world :=
  {| environ := environ w; home := home w; config_file := config_file w;
     config_save := config_save w; tts_script_exists := tts_script_exists w;
     subprocess_run := subprocess_run w; stdin := stdin w;
     random_source := random_source w; stdout := (stdout w ++ lines)%list |}.

(** The world after the configuration file was rewritten. *)
Definition set_config_file (w : world) (f : file_state) : world :=
  {| environ := environ w; home := home w; config_file := f;
     config_save := config_save w; tts_script_exists := tts_script_exists w;
     subprocess_run := subprocess_run w; stdin := stdin w;
     random_source := random_source w; stdout := stdout w |}.

Definition lift {A : Type} (r : res A) : M A := λ w, (r, w).

(** [print(line)]. *)
Definition print (line : string) : M unit := λ w, (Ok (), add_lines w [line]).

(** [sys.exit(code)]. *)
Definition sys_exit {A : Type} (code : Z) : M A := raise (SystemExit code).

(** [try: m except ...: handler e]; a handler that does not list the
    exception answers [None] and the exception goes on. *)
Definition try_with {A : Type} (m : M A) (handler : exn → option (M A)) : M A := λ w,
  match m w with
  | (Ok a, w') => (Ok a, w')
  | (Raise e, w') =>
      match handler e with
      | Some h => h w'
      | None => (Raise e, w')
      end
  end.

(** [with open(config_path, 'r') as f: return json.load(f)]. *)
Definition read_config : M json := λ w,
  (json_load_file (config_file w), w).

(** [with open(config_path, 'w') as f: json.dump(config, f, indent=2)]: after
    a save that succeeds the file holds the text of [config], which
    [json.load] reads back as [config]; a failing [open] leaves the file as it
    was; a failure after the open leaves what had been written. *)
Definition write_config (config : json) : M unit := λ w,
  match config_save w with
  | Saved => (Ok (), set_config_file w (Parsed config))
  | OpenFailed err => (Raise (OSError err), w)
  | WriteFailed err remains => (Raise (OSError err), set_config_file w remains)
  end.

Definition get_factory_config_path (w : world) : string :=
  home w ++ "/.claude/config/factory.json".

(** [config_path.exists()] stands before the [try]: what it raises leaves
    the function. *)
Definition load_factory_config : M json :=
  w ← get_world;
  let config_path := get_factory_config_path w in
  found ← lift (Path_exists (config_file w));
  if negb found then
    print "❌ Factory configuration not found";;
    print ("   Expected: " ++ config_path);;
    print "💡 Please run /start-project first to initialize the factory";;
    sys_exit 1
  else
    try_with read_config (λ e,
      match e with
      | JSONDecodeError msg => Some (
          print ("❌ Invalid JSON in factory configuration: " ++ msg);;
          print ("🔧 Please check " ++ config_path);;
          sys_exit 1)
      | SystemExit _ => None
      | _ => Some (
          print ("❌ Failed to read factory configuration: " ++ exn_text e);;
          sys_exit 1)
      end).

Definition save_factory_config (config : json) : M unit :=
  w ← get_world;
  let config_path := get_factory_config_path w in
  try_with (write_config config) (λ e,
    if is_Exception e then Some (
      print ("❌ Failed to save factory configuration: " ++ exn_text e);;
      print ("🔧 Please check permissions for " ++ config_path);;
      sys_exit 1)
    else None).

(** The dictionary [set_voice_state] stores under ['voice']. *)
Definition voice_settings (new_state : bool) : gmap string json :=
  <["factoryNotifications" := JBool new_state]> (
  <["phaseAnnouncements" := JBool new_state]> (
  <["progressUpdates" := JBool new_state]> (
  <["completionCelebration" := JBool new_state]> (
  <["personalizedMessages" := JBool new_state]> (
  <["nameUsageRate" := JFloat (if new_state then 0.7 else 0.0)%float]> ∅))))).

(** [config[key] = value]. *)
Definition py_setitem (config : json) (key : string) (value : json) : res json :=
  match config with
  | JObj m => Ok (JObj (<[key := value]> m))
  | JArr _ => Raise (TypeError "list indices must be integers or slices, not str")
  | _ => Raise (TypeError ("'" ++ type_name config ++ "' object does not support item assignment"))
  end.

Definition enabled_feedback : list string :=
  [ "🔊 Voice announcements ENABLED";
    "";
    "✅ Factory notifications will be announced";
    "✅ Progress updates will be spoken";
    "✅ Completion celebrations will play";
    "✅ Personalized messages active";
    "";
    "🎯 Perfect for engaging factory experience!";
    "";
    "💡 Use /voice-toggle to disable voice features" ].

Definition disabled_feedback : list string :=
  [ "🔇 Voice announcements DISABLED";
    "";
    "❌ Factory notifications silenced";
    "❌ Progress updates muted";
    "❌ Completion celebrations off";
    "❌ Personalized messages disabled";
    "";
    "🤫 Perfect for quiet work environments!";
    "";
    "💡 Use /voice-toggle to enable voice features" ].

Fixpoint print_all (lines : list string) : M unit :=
  match lines with
  | [] => mret ()
  | line :: rest => print line;; print_all rest
  end.

Definition set_voice_state (new_state : bool) : M unit :=
  config ← load_factory_config;
  config ← lift (py_setitem config "voice" (JObj (voice_settings new_state)));
  save_factory_config config;;
  print "";;
  print_all (if new_state then enabled_feedback else disabled_feedback);;
  print "⚙️ Changes take effect immediately for new operations";;
  print "".

Definition toggle_voice_state : M unit :=
  config ← load_factory_config;
  voice_config ← lift (py_get config "voice" (JObj ∅));
  current_state ← lift (py_get voice_config "factoryNotifications" (JBool true));
  let new_state := negb (truthy current_state) in
  set_voice_state new_state;;
  (if new_state
   then print "💡 Use /voice-toggle again to disable"
   else print "💡 Use /voice-toggle again to enable");;
  print "".

Definition get_voice_status : M unit :=
  try_with
    (config ← load_factory_config;
     voice_config ← lift (py_get config "voice" (JObj ∅));
     is_enabled ← lift (py_get voice_config "factoryNotifications" (JBool true));
     print "";;
     (if truthy is_enabled
      then print "🔊 Voice announcements are currently ENABLED";;
           print "✅ Factory operations will include voice feedback"
      else print "🔇 Voice announcements are currently DISABLED";;
           print "❌ Factory operations will be silent");;
     print "")
    (λ e,
      match e with
      | SystemExit _ => Some (mret ())
      | _ => None
      end).

(** The flags [argparse] hands to [main]; they are independent switches and
    [main] looks at them in the order enable, disable, toggle, status. *)
Record args : Type := {
  enable : bool;
  disable : bool;
  toggle : bool;
  status : bool
}.

(** [main], given what [parse_args] makes of the command line and, when it is
    accepted, the flags [a].  [parse_args] stands before the [try].  The
    handler for [KeyboardInterrupt], a signal from outside, is left out. *)
Definition main (cl : parse_result) (a : args) : M unit :=
  match cl with
  | Rejected => sys_exit 2
  | HelpShown text => print_all text;; sys_exit 0
  | Accepted =>
      try_with
        (if enable a then set_voice_state true
         else if disable a then set_voice_state false
         else if toggle a then toggle_voice_state
         else if status a then get_voice_status
         else toggle_voice_state)
        (λ e,
          if is_Exception e then Some (
            print ("❌ Unexpected error: " ++ exn_text e);;
            print "🔧 Please check your factory configuration";;
            sys_exit 1)
          else None)
  end.

(** Running the script: the exit status of the process and the world it
    leaves.  [main] returning means status 0; [SystemExit] carries its code;
    an exception that reaches the top ends the process with status 1. *)
Definition process (cl : parse_result) (a : args) (w : world) : Z * world :=
  match main cl a w with
  | (Ok _, w') => (0, w')
  | (Raise (SystemExit code), w') => (code, w')
  | (Raise _, w') => (1, w')
  end.

(** A run whose command line [parse_args] accepted, with flags [a]. *)
Definition run (a : args) (w : world) : Z * world := process Accepted a w.

End voice_control.

(** ** [hooks/utils/tts/openai_tts.py] *)

Module openai_tts.

(** What the script meets when it runs. *)
Record tts_env : Type := {
  api_key : option string;          (* [os.getenv("OPENAI_API_KEY")] after [load_dotenv()] *)
  argv : list string;               (* [sys.argv] *)
  packages_missing : bool;          (* [from openai import OpenAI] or [import pygame] fails *)
  client_error : option string;     (* error text if [OpenAI(api_key=...)] raises *)
  speak : string → option string    (* the inner [try] block on a text: the error text
                                       if it raises, nothing if playback completes *)
}.

(** [" ".join(words)]. *)
Fixpoint join_words (words : list string) : string :=
  match words with
  | [] => ""
  | [word] => word
  | word :: rest => word ++ " " ++ join_words rest
  end.

(** ["=" * n]. *)
Fixpoint rule (n : nat) : string :=
  match n with
  | O => ""
  | S n' => "=" ++ rule n'
  end.

(** A run of the script: exit status, lines printed, and the texts handed to
    the speech API. *)
Record tts_run : Type := {
  status : Z;
  printed : list string;
  requests : list string
}.

Definition main (e : tts_env) : tts_run :=
  if negb (match api_key e with Some key => negb (String.eqb key "") | None => false end)
  then {| status := 1;
          printed := [ "❌ Error: OPENAI_API_KEY not found in environment variables";
                       "Please add your OpenAI API key to .env file:";
                       "OPENAI_API_KEY=your_api_key_here" ];
          requests := [] |}
  else if packages_missing e
  then {| status := 1;
          printed := [ "❌ Error: Required package not installed";
                       "This script uses UV to auto-install dependencies.";
                       "Make sure UV is installed: https://docs.astral.sh/uv/" ];
          requests := [] |}
  else
    match client_error e with
    | Some err =>
        {| status := 1; printed := ["❌ Unexpected error: " ++ err]; requests := [] |}
    | None =>
        let text :=
          if (1 <? Z.of_nat (length (argv e)))
          then join_words (tail (argv e))
          else "Consciousness evolution in progress - let's bridge minds!" in
        let header :=
          [ "🧠 OpenAI Consciousness Bridge"; rule 30;
            "🎯 Text: " ++ text; "🔊 Generating and playing..." ] in
        match speak e text with
        | None =>
            {| status := 0; printed := (header ++ ["✅ Playback complete!"])%list;
               requests := [text] |}
        | Some err =>
            let report := "❌ Error: " ++ err in
            {| status := 0; printed := (header ++ [report])%list;
               requests := [text] |}
        end
    end.

End openai_tts.

Import factory_notification.

(** ** Vocabulary of the properties *)

(** The first pattern of each phase: the emoji-prefixed phase marker. *)
Definition phase_markers : list (Z * string) :=
  omap (λ '(phase, patterns), pair phase <$> head patterns) phase_patterns.

(** Some pattern of a phase numbered below [p] occurs in [s]. *)
Definition earlier_trigger (p : Z) (s : string) : bool :=
  existsb (λ '(q, patterns), (q <? p) && existsb (λ pattern, str_in pattern s) patterns)
          phase_patterns.

(** All trigger patterns of the classifier. *)
Definition all_triggers : list string := concat (phase_patterns.*2).

(** The triggers that themselves contain a keyword of the broader set. *)
Definition covered_triggers : list string :=
  filter (λ pattern, is_factory_todo pattern = true) all_triggers.

(** The event is a [TodoWrite] tool call carrying the list [todos]. *)
Definition todo_write (input_data : json) (todos : list json) : Prop :=
  ∃ m tool_input : gmap string json,
    input_data = JObj m ∧
    m !! "tool_name" = Some (JStr "TodoWrite") ∧
    m !! "tool_input" = Some (JObj tool_input) ∧
    tool_input !! "todos" = Some (JArr todos).

(** A todo item with a textual content; [status] is what
    [todo.get('status', '')] finds. *)
Definition todo_item (todo : json) (content : string) (status : json) : Prop :=
  ∃ t : gmap string json,
    todo = JObj t ∧
    t !! "content" = Some (JStr content) ∧
    default (JStr "") (t !! "status") = status.

(** The configuration cannot be loaded: missing, unreadable (it cannot be
    examined, opened or decoded) or malformed. *)
Definition unusable (f : file_state) : Prop :=
  match f with
  | Missing | Unreadable _ | Malformed _ | Undecodable _ | Inaccessible _ => True
  | Parsed _ => False
  end.

(** The mode [main] selects from the command-line flags. *)
Inductive mode : Type := Enable | Disable | Toggle | Status.

Definition mode_of (a : voice_control.args) : mode :=
  if voice_control.enable a then Enable
  else if voice_control.disable a then Disable
  else if voice_control.toggle a then Toggle
  else if voice_control.status a then Status
  else Toggle.

(** The lines [load_factory_config] prints before it exits. *)
Definition load_diagnostic (w : world) : list string :=
  match config_file w with
  | Missing =>
      [ "❌ Factory configuration not found";
        "   Expected: " ++ voice_control.get_factory_config_path w;
        "💡 Please run /start-project first to initialize the factory" ]
  | Malformed err =>
      [ "❌ Invalid JSON in factory configuration: " ++ err;
        "🔧 Please check " ++ voice_control.get_factory_config_path w ]
  | Unreadable err | Undecodable err =>
      [ "❌ Failed to read factory configuration: " ++ err ]
  | Parsed _ | Inaccessible _ => []
  end.

(** What a run prints about a configuration it cannot load: the lines of
    [load_factory_config], or, when the existence check itself raises, the
    lines of the handler of [main]. *)
Definition diagnostic (w : world) : list string :=
  match config_file w with
  | Inaccessible err =>
      [ "❌ Unexpected error: " ++ err;
        "🔧 Please check your factory configuration" ]
  | _ => load_diagnostic w
  end.

(** The lines [save_factory_config] prints before it exits. *)
Definition save_diagnostic (w : world) (err : string) : list string :=
  [ "❌ Failed to save factory configuration: " ++ err;
    "🔧 Please check permissions for " ++ voice_control.get_factory_config_path w ].

(** The lines [set_voice_state] prints once the file is saved. *)
Definition state_feedback (new_state : bool) : list string :=
  ("" :: (if new_state then voice_control.enabled_feedback
          else voice_control.disabled_feedback)
      ++ [ "⚙️ Changes take effect immediately for new operations"; "" ])%list.

(** The command [main] runs in each mode. *)
Definition command (mo : mode) : voice_control.M unit :=
  match mo with
  | Enable => voice_control.set_voice_state true
  | Disable => voice_control.set_voice_state false
  | Toggle => voice_control.toggle_voice_state
  | Status => voice_control.get_voice_status
  end.

(** How the process ends after the command of [main]: the handler of [main]
    reports an exception and exits with 1, an exit request goes through. *)
Definition finish (r : res unit * world) : Z * world :=
  match r with
  | (Ok _, w) => (0, w)
  | (Raise (SystemExit code), w) => (code, w)
  | (Raise e, w) =>
      (1, voice_control.add_lines w
            [ "❌ Unexpected error: " ++ exn_text e;
              "🔧 Please check your factory configuration" ])
  end.

(** The voice object has its five flags equal to [b] and the name usage rate
    that goes with [b]. *)
Definition lockstep (voice : gmap string json) (b : bool) : Prop :=
  voice !! "factoryNotifications" = Some (JBool b) ∧
  voice !! "phaseAnnouncements" = Some (JBool b) ∧
  voice !! "progressUpdates" = Some (JBool b) ∧
  voice !! "completionCelebration" = Some (JBool b) ∧
  voice !! "personalizedMessages" = Some (JBool b) ∧
  voice !! "nameUsageRate" = Some (JFloat (if b then 0.7 else 0.0)%float).

(** The child ran and failed: a non-zero exit or a timeout, the two failures
    the loop catches. *)
Definition caught_failure (r : run_result) : Prop :=
  match r with
  | Exited code => code ≠ 0
  | TimedOut => True
  | LaunchFailed => False
  end.

(** ** Sample inputs *)

Definition sample_todo (content status : string) : json :=
  JObj {[ "content" := JStr content; "status" := JStr status ]}.

Definition sample_event (todos : list json) : json :=
  JObj {[ "tool_name" := JStr "TodoWrite";
          "tool_input" := JObj {[ "todos" := JArr todos ]} ]}.

Definition sample_rng : rng :=
  {| random := 0.5%float; randbelow := λ _, 0%nat |}.

(** A phase-3 item that has just been started. *)
Definition progress_event : json :=
  sample_event [sample_todo "🧠 Phase 3: Context Assembly" "in_progress"].

(** Phase 3 is done and phase 4 has been started. *)
Definition handover_event : json :=
  sample_event [ sample_todo "🧠 Phase 3: Context Assembly" "completed";
                 sample_todo "📝 Phase 4: Generate project files" "in_progress" ].

Definition only_elevenlabs (s : tts_script) : bool :=
  match s with
  | elevenlabs_tts => true
  | openai_tts | pyttsx3_tts => false
  end.

Definition elevenlabs_and_pyttsx3 (s : tts_script) : bool :=
  match s with
  | elevenlabs_tts | pyttsx3_tts => true
  | openai_tts => false
  end.

(** A machine with no API key in the environment, no configuration file, and
    backends that all work; the hook receives [progress_event]. *)
Definition hook_world (scripts : tts_script → bool) : world :=
  {| environ := ∅;
     home := "/home/dev";
     config_file := Missing;
     config_save := Saved;
     tts_script_exists := scripts;
     subprocess_run := λ _ _, Exited 0;
     stdin := Some progress_event;
     random_source := sample_rng;
     stdout := [] |}.

Definition sample_config : gmap string json :=
  {[ "projectName" := JStr "demo";
     "voice" := JObj {[ "factoryNotifications" := JBool false;
                        "legacy" := JInt 1 ]} ]}.

(** A machine whose configuration file is in the given state. *)
Definition control_world (f : file_state) : world :=
  {| environ := ∅;
     home := "/home/dev";
     config_file := f;
     config_save := Saved;
     tts_script_exists := λ _, false;
     subprocess_run := λ _ _, Exited 0;
     stdin := None;
     random_source := sample_rng;
     stdout := [] |}.

Definition status_args : voice_control.args :=
  {| voice_control.enable := false; voice_control.disable := false;
     voice_control.toggle := false; voice_control.status := true |}.

Definition toggle_args : voice_control.args :=
  {| voice_control.enable := false; voice_control.disable := false;
     voice_control.toggle := true; voice_control.status := false |}.

(** ** Further vocabulary *)

(** A todo item the loop body cannot read: not a dictionary, or a dictionary
    whose [content] is not a string. *)
Definition unreadable_item (todo : json) : Prop :=
  match todo with
  | JObj t =>
      match t !! "content" with
      | None | Some (JStr _) => False
      | Some _ => True
      end
  | _ => True
  end.

(** The hook is about to speak: voice is enabled, the event on standard input
    is announced with phase [p] and completion flag [c], and the key-based
    selection has found a script. *)
Definition ready `{StrOps} (w : world) (p : Z) (c : bool) : Prop :=
  (∃ enabled, is_voice_enabled w = Ok enabled ∧ truthy enabled = true) ∧
  (∃ input_data, stdin w = Some input_data ∧
     should_announce_factory_progress input_data = Ok (true, Some p, Some c)) ∧
  is_Some (get_tts_script_path w).

(** The loop of the cascade goes on to the next script. *)
Definition goes_on (r : run_result) : bool :=
  match r with
  | Exited 0 | LaunchFailed => false
  | Exited _ | TimedOut => true
  end.

(** The same machine with other fortunes for the child processes. *)
Definition set_subprocess_run (w : world)
    (outcome : tts_script → string → run_result) : world :=
  {| environ := environ w; home := home w; config_file := config_file w;
     config_save := config_save w; tts_script_exists := tts_script_exists w;
     subprocess_run := outcome; stdin := stdin w;
     random_source := random_source w; stdout := stdout w |}.

(** The plain hook personalizes its message. *)
Definition notification_uses_name `{StrOps} (w : world) : bool :=
  negb (String.eqb (str_strip (default "" (environ w !! "ENGINEER_NAME"))) "")
  && PrimFloat.ltb (random (random_source w)) 0.7%float.

(** The event carries the generic waiting message. *)
Definition waiting_message (input_data : json) : Prop :=
  ∃ m : gmap string json,
    input_data = JObj m ∧ m !! "message" = Some (JStr "Claude is waiting for your input").

(** The lines the status query prints for a configuration it can read. *)
Definition status_report (is_enabled : bool) : list string :=
  [ "";
    if is_enabled then "🔊 Voice announcements are currently ENABLED"
    else "🔇 Voice announcements are currently DISABLED";
    if is_enabled then "✅ Factory operations will include voice feedback"
    else "❌ Factory operations will be silent";
    "" ].

(** The state a mode asks for, given the flag found in the file. *)
Definition new_flag (mo : mode) (old : json) : bool :=
  match mo with
  | Enable => true
  | Disable => false
  | Toggle | Status => negb (truthy old)
  end.

(** The flag as [toggle_voice_state] and [get_voice_status] read it. *)
Definition stored_flag (config : json) : res json :=
  py_get config "voice" (JObj ∅)
    ≫= (λ voice_config, py_get voice_config "factoryNotifications" (JBool true)).

(** The five ways a command of [main] can end. *)
Inductive ending (mo : mode) (w : world) : res unit * world → Prop :=
  | ending_reported (lines : list string) :
      mo = Status → lines ≠ [] →
      ending mo w (Ok (), voice_control.add_lines w lines)
  | ending_saved (config : json) (lines : list string) :
      mo ≠ Status → lines ≠ [] →
      ending mo w (Ok (), voice_control.add_lines (voice_control.set_config_file w (Parsed config)) lines)
  | ending_exit (lines : list string) :
      lines ≠ [] →
      ending mo w (Raise (SystemExit 1), voice_control.add_lines w lines)
  | ending_spoiled (err : string) (remains : file_state) (lines : list string) :
      mo ≠ Status → config_save w = WriteFailed err remains → lines ≠ [] →
      ending mo w (Raise (SystemExit 1),
                   voice_control.add_lines (voice_control.set_config_file w remains) lines)
  | ending_raised (e : exn) :
      is_Exception e = true →
      ending mo w (Raise e, w).

(** The name the hooks read from the environment. *)
Definition engineer_name_of `{StrOps} (w : world) : string :=
  str_strip (default "" (environ w !! "ENGINEER_NAME")).

(** ** Further sample inputs *)

(** The machine of [hook_world] with the ElevenLabs and pyttsx3 scripts and
    the given fortunes for the child processes. *)
Definition cascade_world (outcome : tts_script → string → run_result) : world :=
  set_subprocess_run (hook_world elevenlabs_and_pyttsx3) outcome.

(** ElevenLabs fails for want of a key, the local backend works. *)
Definition cloud_fails (s : tts_script) (message : string) : run_result :=
  match s with
  | elevenlabs_tts | openai_tts => Exited 1
  | pyttsx3_tts => Exited 0
  end.

Definition all_fail (s : tts_script) (message : string) : run_result :=
  match s with
  | elevenlabs_tts | openai_tts => Exited 1
  | pyttsx3_tts => TimedOut
  end.

(** [uv] is not installed. *)
Definition no_launcher (s : tts_script) (message : string) : run_result := LaunchFailed.

(** A todo list whose first entry is a bare string. *)
Definition broken_event : json :=
  sample_event [ JStr "write tests";
                 sample_todo "🧠 Phase 3: Context Assembly" "in_progress" ].

Definition broken_world : world :=
  {| environ := ∅;
     home := "/home/dev";
     config_file := Missing;
     config_save := Saved;
     tts_script_exists := elevenlabs_and_pyttsx3;
     subprocess_run := λ _ _, Exited 0;
     stdin := Some broken_event;
     random_source := sample_rng;
     stdout := [] |}.

(** A machine with the ElevenLabs key and every script. *)
Definition keyed_world : world :=
  {| environ := {[ "ELEVENLABS_API_KEY" := "sk-test"; "ENGINEER_NAME" := " Ada " ]};
     home := "/home/dev";
     config_file := Missing;
     config_save := Saved;
     tts_script_exists := λ _, true;
     subprocess_run := λ _ _, Exited 0;
     stdin := Some progress_event;
     random_source := sample_rng;
     stdout := [] |}.

(** A configuration that can be read and not written. *)
Definition readonly_world : world :=
  {| environ := ∅;
     home := "/home/dev";
     config_file := Parsed (JObj sample_config);
     config_save := OpenFailed "[Errno 13] Permission denied";
     tts_script_exists := λ _, false;
     subprocess_run := λ _ _, Exited 0;
     stdin := None;
     random_source := sample_rng;
     stdout := [] |}.

(** A configuration that can be read; writing it fails once the file has been
    opened, and the file is left empty. *)
Definition full_disk_world : world :=
  {| environ := ∅;
     home := "/home/dev";
     config_file := Parsed (JObj sample_config);
     config_save :=
       WriteFailed "[Errno 28] No space left on device"
                   (Malformed "Expecting value: line 1 column 1 (char 0)");
     tts_script_exists := λ _, false;
     subprocess_run := λ _ _, Exited 0;
     stdin := None;
     random_source := sample_rng;
     stdout := [] |}.

Definition disable_args : voice_control.args :=
  {| voice_control.enable := false; voice_control.disable := true;
     voice_control.toggle := false; voice_control.status := false |}.

(** The plain hook with [--notify], an event on standard input and a log
    that holds one earlier event. *)
Definition sample_log_world : notification.log_world :=
  {| notification.hook := keyed_world;
     notification.notify := true;
     notification.makedirs_error := None;
     notification.log_file := Parsed (JArr [JStr "earlier"]);
     notification.log_save := Saved |}.



(** The machine of [hook_world] with all three scripts, none of which
    manages to speak. *)
Definition silent_world : world :=
  set_subprocess_run (hook_world (λ _, true)) all_fail.

(** The backend called with one message; the speech API rejects the key. *)
Definition sample_tts_env : openai_tts.tts_env :=
  {| openai_tts.api_key := Some "sk-test";
     openai_tts.argv := ["openai_tts.py"; "Factory systems online"];
     openai_tts.packages_missing := false;
     openai_tts.client_error := None;
     openai_tts.speak := λ _, Some "Error code: 401" |}.

(** ** Substring search *)

Lemma string_app_cons (c : Ascii.ascii) (a b : string) :
  String c a ++ b = String c (a ++ b).
Proof. reflexivity. Qed.

Lemma string_app_nil (b : string) : "" ++ b = b.
Proof. reflexivity. Qed.

Lemma prefix_app (p s : string) : String.prefix p s = true ↔ ∃ b, s = p ++ b.
Proof.
  revert s. induction p as [|c p IH]; intros s.
  - destruct s; simpl; split; eauto.
  - destruct s as [|d s]; simpl.
    + split; [discriminate | intros [b Hb]; discriminate].
    + destruct (Ascii.ascii_dec c d) as [->|Hne].
      * rewrite IH. split; intros [b Hb]; exists b;
          rewrite string_app_cons in *; congruence.
      * split; [discriminate | intros [b Hb]; rewrite string_app_cons in Hb; congruence].
Qed.

Lemma string_app_assoc (a b c : string) : (a ++ b) ++ c = a ++ b ++ c.
Proof.
  induction a as [|x a IH]; [done|].
  by rewrite !string_app_cons, IH.
Qed.

Lemma str_in_nil (pat : string) : str_in pat "" = String.prefix pat "".
Proof. unfold str_in. by destruct (String.prefix pat ""). Qed.

Lemma str_in_cons (pat : string) (c : Ascii.ascii) (s : string) :
  str_in pat (String c s) = String.prefix pat (String c s) || str_in pat s.
Proof. reflexivity. Qed.

(** [str_in] is substring search. *)
Lemma str_in_spec (pat s : string) : str_in pat s = true ↔ ∃ a b, s = a ++ pat ++ b.
Proof.
  induction s as [|c s IH].
  - rewrite str_in_nil, prefix_app. split.
    + intros [b Hb]. by exists "", b.
    + intros ([|x a] & b & Hab); [|discriminate].
      rewrite string_app_nil in Hab. eauto.
  - rewrite str_in_cons, orb_true_iff, prefix_app, IH. split.
    + intros [[b Hb]|(a & b & ->)]; [by exists "", b | by exists (String c a), b].
    + intros ([|x a] & b & Hab).
      * rewrite string_app_nil in Hab. eauto.
      * rewrite string_app_cons in Hab. injection Hab as _ ->. eauto.
Qed.

Lemma str_in_trans (a b s : string) :
  str_in a b = true → str_in b s = true → str_in a s = true.
Proof.
  rewrite !str_in_spec. intros (x & y & ->) (u & v & ->).
  exists (u ++ x), (y ++ v). by rewrite !string_app_assoc.
Qed.

Lemma existsb_str_in_trans (pats : list string) (b s : string) :
  existsb (λ a, str_in a b) pats = true → str_in b s = true →
  existsb (λ a, str_in a s) pats = true.
Proof.
  rewrite !existsb_exists. intros (a & Hin & Ha) Hb. eauto using str_in_trans.
Qed.

(** ** The phase classifier *)

Section classifier.
Context `{StrOps}.

Lemma first_phase_app (s : string) (pre post : list (Z * list string)) :
  first_phase s (pre ++ post) =
  match first_phase s pre with
  | Some p => Some p
  | None => first_phase s post
  end.
Proof.
  induction pre as [|[q qs] pre IH]; simpl; [done|].
  by destruct (existsb _ qs).
Qed.

(** The classifier answers with the phase of an entry of [phase_patterns]
    one of whose patterns occurs in the text. *)
Lemma first_phase_Some (s : string) (items : list (Z * list string)) (p : Z) :
  first_phase s items = Some p →
  ∃ patterns, (p, patterns) ∈ items ∧ existsb (λ pattern, str_in pattern s) patterns = true.
Proof.
  induction items as [|[q qs] items IH]; simpl; [done|].
  destruct (existsb _ qs) eqn:Hq.
  - intros [= <-]. exists qs. split; [left | done].
  - intros (pats & Hin & Hex)%IH. exists pats. split; [by right | done].
Qed.

Lemma first_phase_is_Some (s : string) (items : list (Z * list string)) (pattern : string) :
  pattern ∈ concat (items.*2) → str_in pattern s = true →
  is_Some (first_phase s items).
Proof.
  induction items as [|[q qs] items IH]; simpl.
  - by intros ?%elem_of_nil.
  - intros [Hin|Hin]%elem_of_app Hs.
    + assert (existsb (λ pat, str_in pat s) qs = true) as ->; [|by eexists].
      apply existsb_exists. exists pattern. by rewrite <- list_elem_of_In.
    + destruct (existsb _ qs); [by eexists | by apply IH].
Qed.

Lemma detect_factory_phase_range (text : string) (p : Z) :
  detect_factory_phase text = Some p → 1 ≤ p ≤ 5.
Proof.
  unfold detect_factory_phase. destruct (String.eqb text ""); [done|].
  intros (pats & Hin & _)%first_phase_Some.
  unfold phase_patterns in Hin.
  repeat (apply elem_of_cons in Hin as [[= -> _]|Hin]; [lia|]).
  by apply elem_of_nil in Hin.
Qed.

Lemma lower_nonempty (text pattern : string) :
  pattern ≠ "" → str_in pattern (str_lower text) = true → String.eqb text "" = false.
Proof.
  intros Hne Hin. apply String.eqb_neq. intros ->.
  rewrite str_lower_empty in Hin. destruct pattern; [done | discriminate].
Qed.

(** C3, as amended: a text whose lower-cased form contains the emoji-prefixed
    marker of phase [p] (for phase 3 the marker is the brain emoji followed by
    [ phase 3]) and no trigger pattern of a lower-numbered phase is classified
    as phase [p]; this holds for each of the five markers. *)
Theorem marker_classifies (text : string) (p : Z) (marker : string) :
  (p, marker) ∈ phase_markers →
  str_in marker (str_lower text) = true →
  earlier_trigger p (str_lower text) = false →
  detect_factory_phase text = Some p.
Proof.
  intros Hm Hin Hearlier.
  unfold detect_factory_phase.
  rewrite (lower_nonempty text marker); [|
    intros ->; cbv in Hm;
    repeat (apply elem_of_cons in Hm as [[=]|Hm]); by apply elem_of_nil in Hm | done].
  cbv [phase_markers phase_patterns omap list_omap head fmap option_fmap option_map] in Hm.
  unfold earlier_trigger, phase_patterns in Hearlier.
  repeat (apply elem_of_cons in Hm as [[= -> ->]|Hm];
    [ cbn [existsb] in Hearlier; cbn [first_phase phase_patterns existsb];
      repeat match type of Hearlier with
             | context [(?a <? ?b)] => change (a <? b) with true in Hearlier
                                      || change (a <? b) with false in Hearlier
             end;
      cbn [andb orb] in Hearlier;
      repeat (apply orb_false_elim in Hearlier as [? Hearlier]);
      repeat match goal with
             | Hx : str_in ?a ?b = false |- _ => rewrite Hx; clear Hx
             | Hx : (_ || _) = false |- _ => apply orb_false_elim in Hx as [? ?]
             end;
      cbn [orb]; by rewrite Hin |]).
  by apply elem_of_nil in Hm.
Qed.

End classifier.

(** ** The factory-progress dispatcher *)

Lemma eq_str_true (j : json) (lit : string) : eq_str j lit = true ↔ j = JStr lit.
Proof.
  destruct j; simpl; try (split; [discriminate | intros [=]]).
  rewrite String.eqb_eq. split; [by intros -> | by intros [= ->]].
Qed.

Lemma eq_str_false (j : json) (lit : string) : eq_str j lit = false ↔ j ≠ JStr lit.
Proof.
  rewrite <- eq_str_true. by destruct (eq_str j lit).
Qed.

Lemma eq_str_reflect (j : json) (lit : string) : reflect (j = JStr lit) (eq_str j lit).
Proof. apply iff_reflect. symmetry. apply eq_str_true. Qed.

Section dispatcher.
Context `{StrOps}.

(** C6, as amended: the secondary keyword check is redundant for the triggers
    that themselves contain a keyword of the broader set (the five
    emoji-prefixed markers and the phrases shared by both lists): a content
    whose lower-cased form contains one of them is assigned a phase and
    passes the keyword check. *)
Theorem covered_trigger_passes_keyword_check (content pattern : string) :
  pattern ∈ covered_triggers →
  str_in pattern (str_lower content) = true →
  is_Some (detect_factory_phase content) ∧ is_factory_todo (str_lower content) = true.
Proof.
  unfold covered_triggers. intros [Hkw Hall]%list_elem_of_filter Hin.
  assert (pattern ≠ "") as Hne by (intros ->; discriminate Hkw).
  split.
  - unfold detect_factory_phase. rewrite (lower_nonempty content pattern) by done.
    by apply (first_phase_is_Some _ _ pattern).
  - unfold is_factory_todo in *. by apply (existsb_str_in_trans _ pattern).
Qed.

(** What the loop body does with a well-formed, factory-relevant item. *)
Lemma todo_body_relevant (todo : json) (content : string) (status : json) (p : Z) :
  todo_item todo content status →
  is_factory_todo (str_lower content) = true →
  detect_factory_phase (str_lower content) = Some p →
  todo_body todo =
    Ok (if eq_str status "completed" && (p =? 5)
        then Some (true, Some p, Some true)
        else if eq_str status "in_progress" && (p <? 5)
        then Some (true, Some p, Some false)
        else None).
Proof.
  intros (t & -> & Hc & Hs) Hkw Hp.
  pose proof (detect_factory_phase_range _ _ Hp) as Hrange.
  unfold todo_body. simpl. rewrite Hc, Hs. simpl. rewrite Hkw, Hp.
  replace (p =? 0) with false by lia. simpl.
  by destruct (eq_str status "completed"), (p =? 5),
    (eq_str status "in_progress"), (p <? 5).
Qed.

Lemma should_announce_todo_write (input_data : json) (todos : list json) :
  todo_write input_data todos →
  should_announce_factory_progress input_data = todos_loop todos.
Proof.
  intros (m & ti & -> & Hname & Hinput & Htodos).
  unfold should_announce_factory_progress. simpl.
  rewrite Hname, Hinput. simpl. rewrite Htodos. simpl.
  by destruct todos.
Qed.

(** C4: for a todo list whose single item is factory-relevant with detected
    phase [p] and status [s], the dispatcher announces if and only if
    [p = 5] and [s] is [completed], or [p] is in 1..4 and [s] is
    [in_progress]; otherwise it answers "do not announce". *)
Theorem single_item_gating (input_data todo : json) (content : string) (s : json) (p : Z) :
  todo_write input_data [todo] →
  todo_item todo content s →
  is_factory_todo (str_lower content) = true →
  detect_factory_phase (str_lower content) = Some p →
  ∃ d : decision,
    should_announce_factory_progress input_data = Ok d ∧
    (d.1.1 = true ↔
       (p = 5 ∧ s = JStr "completed") ∨ (1 ≤ p ≤ 4 ∧ s = JStr "in_progress")) ∧
    (d.1.1 = true → d = (true, Some p, Some (p =? 5))) ∧
    (d.1.1 = false → d = (false, None, None)).
Proof.
  intros Hev Hitem Hkw Hp.
  pose proof (detect_factory_phase_range _ _ Hp) as Hrange.
  rewrite (should_announce_todo_write _ _ Hev). simpl.
  rewrite (todo_body_relevant _ _ _ _ Hitem Hkw Hp). simpl.
  destruct (eq_str_reflect s "completed") as [Hc|Hc],
    (eq_str_reflect s "in_progress") as [Hi|Hi],
    (Z.eqb_spec p 5) as [H5|H5], (Z.ltb_spec p 5) as [Hlt|Hlt];
    try (exfalso; lia); try (exfalso; congruence);
    simpl; (eexists; split; [reflexivity|]); simpl;
    (split_and!; [|done..]);
    (split; [intros Hd | intros [[? ?]|[? ?]]]); try done; try lia.
  - by left.
  - right. split; [lia | done].
Qed.

Lemma todos_loop_skip (pre rest : list json) :
  Forall (λ todo, todo_body todo = Ok None) pre →
  todos_loop (pre ++ rest) = todos_loop rest.
Proof.
  induction 1 as [|todo pre Hbody _ IH]; [done|].
  simpl. by rewrite Hbody.
Qed.

(** C5, as amended: the decision is that of the first item, in input-list
    order, for which the loop body returns, that is the first
    factory-relevant item with a detected phase whose status/phase
    combination is announced; items before it that are not announced are
    skipped, whatever follows it is not looked at, and a list with no such
    item announces nothing. *)
Theorem first_announced_item_wins (input_data : json) (todos : list json) :
  todo_write input_data todos →
  (∀ (pre : list json) (item : json) (post : list json) (d : decision),
     todos = (pre ++ item :: post)%list →
     Forall (λ todo, todo_body todo = Ok None) pre →
     todo_body item = Ok (Some d) →
     should_announce_factory_progress input_data = Ok d) ∧
  (Forall (λ todo, todo_body todo = Ok None) todos →
   should_announce_factory_progress input_data = Ok (false, None, None)).
Proof.
  intros Hev. rewrite (should_announce_todo_write _ _ Hev). split.
  - intros pre item post d -> Hpre Hitem.
    rewrite todos_loop_skip by done. simpl. by rewrite Hitem.
  - intros Hall. rewrite <- (app_nil_r todos). by rewrite todos_loop_skip.
Qed.

End dispatcher.

(** ** The message generator *)

Lemma choice_in (r : rng) (seq : list string) :
  rng_ok r → seq ≠ [] → choice r seq ∈ seq.
Proof.
  intros Hr Hne. unfold choice.
  assert (randbelow r (length seq) < length seq)%nat as Hlt.
  { apply Hr. destruct seq; [done | simpl; lia]. }
  destruct (lookup_lt_is_Some_2 seq _ Hlt) as [x Hx].
  rewrite Hx. simpl. by eapply list_elem_of_lookup_2.
Qed.

Lemma phase_messages_keys (n : string) : (phase_messages n).*1 = [1; 2; 3; 4; 5].
Proof. reflexivity. Qed.

Lemma phase_messages_lookup (n : string) (phase : Z) :
  1 ≤ phase ≤ 5 →
  ∃ pool : pools,
    (phase, pool) ∈ phase_messages n ∧
    (list_to_map (phase_messages n) : gmap Z pools) !! phase = Some pool ∧
    length (generic pool) = 4%nat ∧ length (personal pool) = 4%nat.
Proof.
  intros Hrange.
  assert (NoDup ((phase_messages n).*1)) as Hnodup.
  { rewrite phase_messages_keys. apply NoDup_ListNoDup. repeat constructor; simpl; lia. }
  assert (∃ pool, (phase, pool) ∈ phase_messages n ∧
                  length (generic pool) = 4%nat ∧ length (personal pool) = 4%nat)
    as (pool & Hin & Hg & Hp).
  { assert (phase = 1 ∨ phase = 2 ∨ phase = 3 ∨ phase = 4 ∨ phase = 5)
      as [->|[->|[->|[->| ->]]]] by lia;
      eexists; (split; [unfold phase_messages; repeat first [left | right]
                       | split; reflexivity]). }
  exists pool. split_and!; [done | | done | done].
  by apply elem_of_list_to_map_1.
Qed.

Lemma phase_messages_lookup_None (n : string) (phase : Z) :
  ¬ (1 ≤ phase ≤ 5) →
  (list_to_map (phase_messages n) : gmap Z pools) !! phase = None.
Proof.
  intros Hout. apply not_elem_of_list_to_map_1. rewrite phase_messages_keys.
  rewrite !elem_of_cons, elem_of_nil. lia.
Qed.

(** C7: for a phase in 1..5 the generator returns a message of the pool
    documented for that (phase, completed) combination: the completion pool
    (5 generic, 5 personalized messages) when [is_completed] holds and the
    phase is 5, otherwise the pool of the phase (4 generic, 4 personalized).
    The message comes from the personalized half, made with the given name,
    when a name is given, is not empty and the uniform draw is below 0.7; it
    comes from the generic half when no name is given, the name is empty or
    the draw is not below 0.7.  For a phase outside 1..5 the generator
    returns nothing. *)
Theorem message_from_documented_pool (r : rng) (phase : Z)
    (engineer_name : option string) (is_completed : bool) :
  rng_ok r →
  (1 ≤ phase ≤ 5 →
     ∃ message : string,
       get_factory_message r phase engineer_name is_completed = Some message ∧
       ((∃ name : string,
           engineer_name = Some name ∧ name ≠ "" ∧
           PrimFloat.ltb (random r) 0.7%float = true ∧
           if is_completed && (phase =? 5)
           then message ∈ personal_completion_messages name
           else ∃ pool : pools,
                  (phase, pool) ∈ phase_messages name ∧ message ∈ personal pool)
        ∨
        ((engineer_name = None ∨ engineer_name = Some "" ∨
          PrimFloat.ltb (random r) 0.7%float = false) ∧
         if is_completed && (phase =? 5)
         then message ∈ completion_messages
         else ∃ (n : string) (pool : pools),
                (phase, pool) ∈ phase_messages n ∧ message ∈ generic pool))) ∧
  (length completion_messages = 5%nat ∧
   ∀ n : string,
     length (personal_completion_messages n) = 5%nat ∧
     ∀ (q : Z) (pool : pools),
       (q, pool) ∈ phase_messages n →
       length (generic pool) = 4%nat ∧ length (personal pool) = 4%nat) ∧
  (¬ (1 ≤ phase ≤ 5) →
     get_factory_message r phase engineer_name is_completed = None).
Proof.
  intros Hr. split_and!.
  - intros Hrange.
    destruct (phase_messages_lookup (name_text engineer_name) phase Hrange)
      as (pool & Hin & Hlookup & Hg & Hp).
    assert (choice r (generic pool) ∈ generic pool) as Hgeneric.
    { apply choice_in; [done|]. intros Hnil. by rewrite Hnil in Hg. }
    assert (choice r (personal pool) ∈ personal pool) as Hpersonal.
    { apply choice_in; [done|]. intros Hnil. by rewrite Hnil in Hp. }
    assert (choice r completion_messages ∈ completion_messages) as Hdone
      by (by apply choice_in).
    assert (∀ n, choice r (personal_completion_messages n)
                   ∈ personal_completion_messages n) as Hdone_personal
      by (intros n; by apply choice_in).
    unfold get_factory_message, use_name, name_truthy. rewrite Hlookup.
    destruct engineer_name as [name|];
      [destruct (String.eqb_spec name "") as [->|Hname]|];
      destruct (PrimFloat.ltb (random r) 0.7%float) eqn:Hdraw;
      destruct (is_completed && (phase =? 5)) eqn:Hcompleted;
      cbn [negb andb name_text default id];
      (eexists; split; [reflexivity|]);
      first [ left; exists name; split_and!; [done..|]; first [done | by exists pool]
            | right; split; [tauto|]; first [done | by eexists _, pool] ].
  - reflexivity.
  - intros n. split; [reflexivity|].
    intros q pool Hin. unfold phase_messages in Hin.
    repeat (apply elem_of_cons in Hin as [Hin|Hin]; [by simplify_eq|]).
    by apply elem_of_nil in Hin.
  - intros Hout. unfold get_factory_message.
    replace (phase =? 5) with false by lia. rewrite andb_false_r.
    by rewrite phase_messages_lookup_None.
Qed.

(** ** The voice-enabled check of the hooks *)

(** The check answers [True] and the configuration does not set the flag to
    [false]. *)
Ltac default_answer :=
  exists (JBool true); split; [done|];
  split_and!; try (by intros; simplify_eq);
  split; [done|]; intros (? & ? & ? & ? & ?); by simplify_eq.

(** The two hooks look for the file in different ways and come to the same
    answer. *)
Lemma voice_checks_agree (w : world) :
  notification.is_voice_enabled w = factory_notification.is_voice_enabled w.
Proof.
  unfold notification.is_voice_enabled, is_voice_enabled.
  by destruct (config_file w).
Qed.

(** C9: the check never raises; it answers [True] when the configuration is
    missing, unreadable or malformed, and also when it parses but has no
    [voice] object or no [factoryNotifications] key; a stored flag is handed
    back as it is, so that the answer is [False] only when the parsed
    configuration sets [voice.factoryNotifications] to [false].  Both hooks
    carry the same check. *)
Theorem voice_enabled_defaults_to_true (w : world) :
  notification.is_voice_enabled w = factory_notification.is_voice_enabled w ∧
  ∃ v : json,
    factory_notification.is_voice_enabled w = Ok v ∧
    (unusable (config_file w) → v = JBool true) ∧
    (∀ m : gmap string json,
       config_file w = Parsed (JObj m) → m !! "voice" = None → v = JBool true) ∧
    (∀ m voice : gmap string json,
       config_file w = Parsed (JObj m) → m !! "voice" = Some (JObj voice) →
       voice !! "factoryNotifications" = None → v = JBool true) ∧
    (∀ (m voice : gmap string json) (flag : json),
       config_file w = Parsed (JObj m) → m !! "voice" = Some (JObj voice) →
       voice !! "factoryNotifications" = Some flag → v = flag) ∧
    (v = JBool false ↔
       ∃ m voice : gmap string json,
         config_file w = Parsed (JObj m) ∧ m !! "voice" = Some (JObj voice) ∧
         voice !! "factoryNotifications" = Some (JBool false)).
Proof.
  split; [apply voice_checks_agree|].
  unfold is_voice_enabled.
  destruct (config_file w) as [| err | err | config | err | err] eqn:Hfile; simpl;
    try solve [default_answer].
  destruct config as [| b | z | f | s | l | m]; simpl; [default_answer..|].
  destruct (m !! "voice") as [voice|] eqn:Hvoice; simpl; [|default_answer].
  destruct voice as [| b | z | f | s | l | voice]; simpl; [default_answer..|].
  destruct (voice !! "factoryNotifications") as [flag|] eqn:Hflag; simpl;
    [|default_answer].
  exists flag. split; [done|]. split_and!; try (by intros; simplify_eq).
  split; [intros ->; eauto|]. intros (? & ? & ? & ? & ?). by simplify_eq.
Qed.

(** ** The voice-control utility *)

Section voice_control_commands.
Import voice_control.

(** Runs a command on a world given by its fields. *)
Ltac run_M :=
  repeat progress
    (cbv [mbind mret M_bind M_ret get_world print sys_exit raise try_with lift
          read_config write_config add_lines set_config_file];
     cbn).

Lemma M_bind_eq {A B : Type} (m : M A) (f : A → M B) (w : world) :
  (m ≫= f) w =
  match m w with
  | (Ok a, w') => f a w'
  | (Raise e, w') => (Raise e, w')
  end.
Proof. reflexivity. Qed.

Lemma print_then {A : Type} (line : string) (k : M A) (w : world) :
  (print line ;; k) w = k (add_lines w [line]).
Proof. reflexivity. Qed.

Lemma add_lines_add_lines (w : world) (l1 l2 : list string) :
  add_lines (add_lines w l1) l2 = add_lines w (l1 ++ l2).
Proof. unfold add_lines. simpl. by rewrite <- app_assoc. Qed.

Lemma print_all_eq (lines : list string) (w : world) :
  print_all lines w = (Ok (), add_lines w lines).
Proof.
  revert w. induction lines as [|line lines IH]; intros w.
  - unfold add_lines. simpl. rewrite app_nil_r. by destruct w.
  - change (print_all (line :: lines) w) with (print_all lines (add_lines w [line])).
    by rewrite IH, add_lines_add_lines.
Qed.

Lemma print_all_then {A : Type} (lines : list string) (k : M A) (w : world) :
  (print_all lines ;; k) w = k (add_lines w lines).
Proof. by rewrite M_bind_eq, print_all_eq. Qed.

(** Loading either yields the parsed configuration and leaves the world as it
    is, or prints the diagnostic and exits with status 1, or lets the error of
    the existence check through. *)
Lemma load_factory_config_eq (w : world) :
  load_factory_config w =
  match config_file w with
  | Parsed config => (Ok config, w)
  | Inaccessible err => (Raise (OSError err), w)
  | _ => (Raise (SystemExit 1), add_lines w (load_diagnostic w))
  end.
Proof.
  unfold load_factory_config, load_diagnostic.
  destruct w as [env hm [| err | err | config | err | err] se ex sr si rs out];
    run_M; by rewrite <- ?app_assoc.
Qed.

Lemma save_factory_config_eq (config : json) (w : world) :
  save_factory_config config w =
  match config_save w with
  | Saved => (Ok (), set_config_file w (Parsed config))
  | OpenFailed err => (Raise (SystemExit 1), add_lines w (save_diagnostic w err))
  | WriteFailed err remains =>
      (Raise (SystemExit 1),
       add_lines (set_config_file w remains) (save_diagnostic w err))
  end.
Proof.
  unfold save_factory_config, save_diagnostic.
  destruct w as [env hm cf [|err|err remains] ex sr si rs out];
    run_M; by rewrite <- ?app_assoc.
Qed.

Lemma set_voice_state_eq (new_state : bool) (w : world) :
  set_voice_state new_state w =
  match config_file w with
  | Parsed config =>
      match py_setitem config "voice" (JObj (voice_settings new_state)) with
      | Ok config' =>
          match config_save w with
          | Saved =>
              (Ok (), add_lines (set_config_file w (Parsed config'))
                                (state_feedback new_state))
          | OpenFailed err =>
              (Raise (SystemExit 1), add_lines w (save_diagnostic w err))
          | WriteFailed err remains =>
              (Raise (SystemExit 1),
               add_lines (set_config_file w remains) (save_diagnostic w err))
          end
      | Raise e => (Raise e, w)
      end
  | Inaccessible err => (Raise (OSError err), w)
  | _ => (Raise (SystemExit 1), add_lines w (load_diagnostic w))
  end.
Proof.
  unfold set_voice_state.
  rewrite M_bind_eq, load_factory_config_eq.
  destruct (config_file w) as [| err | err | config | err | err] eqn:Hfile;
    try done.
  rewrite M_bind_eq. unfold lift.
  destruct (py_setitem config "voice" _) as [config'|e]; [|done].
  rewrite M_bind_eq, save_factory_config_eq.
  destruct (config_save w) as [|err|err remains] eqn:Hsave; [|done..].
  rewrite print_then, print_all_then, print_then.
  unfold print. by rewrite !add_lines_add_lines.
Qed.

Lemma toggle_voice_state_eq (w : world) :
  toggle_voice_state w =
  match config_file w with
  | Parsed config =>
      match py_get config "voice" (JObj ∅)
              ≫= (λ voice_config, py_get voice_config "factoryNotifications" (JBool true)) with
      | Ok current_state =>
          match set_voice_state (negb (truthy current_state)) w with
          | (Ok _, w') =>
              (Ok (), add_lines w'
                        [ if negb (truthy current_state)
                          then "💡 Use /voice-toggle again to disable"
                          else "💡 Use /voice-toggle again to enable";
                          "" ])
          | (Raise e, w') => (Raise e, w')
          end
      | Raise e => (Raise e, w)
      end
  | Inaccessible err => (Raise (OSError err), w)
  | _ => (Raise (SystemExit 1), add_lines w (load_diagnostic w))
  end.
Proof.
  unfold toggle_voice_state.
  rewrite M_bind_eq, load_factory_config_eq.
  destruct (config_file w) as [| err | err | config | err | err] eqn:Hfile;
    try done.
  rewrite M_bind_eq. unfold lift.
  destruct (py_get config "voice" (JObj ∅)) as [voice_config|e]; [|done].
  rewrite M_bind_eq. simpl.
  destruct (py_get voice_config "factoryNotifications" (JBool true))
    as [current_state|e]; [|done].
  rewrite M_bind_eq.
  destruct (set_voice_state _ w) as [[[]|e] w']; [|done].
  destruct (negb (truthy current_state)); run_M; by rewrite <- ?app_assoc.
Qed.

(** With a configuration that cannot be loaded the status command prints the
    diagnostic of the loader and swallows the exit request; the error of the
    existence check is no exit request and goes on. *)
Lemma get_voice_status_unusable (w : world) :
  unusable (config_file w) →
  get_voice_status w =
  match config_file w with
  | Inaccessible err => (Raise (OSError err), w)
  | _ => (Ok (), add_lines w (load_diagnostic w))
  end.
Proof.
  intros Hbad. unfold get_voice_status, try_with.
  rewrite M_bind_eq, load_factory_config_eq.
  by destruct (config_file w).
Qed.

Lemma run_eq (a : args) (w : world) :
  run a w = finish (command (mode_of a) w).
Proof.
  unfold run, process, main, try_with, mode_of.
  destruct a as [[] [] [] []]; simpl;
    match goal with
    | |- context [?c w] => destruct (c w) as [[[]|[]] w']
    end; try done; run_M; by rewrite <- ?app_assoc.
Qed.

(** Reading the flag out of the configuration raises no exit request. *)
Lemma py_get_Raise (obj : json) (key : string) (dflt : json) (e : exn) :
  py_get obj key dflt = Raise e → is_Exception e = true.
Proof. destruct obj; simpl; by intros [= <-]. Qed.

Lemma read_flag_Raise (config : json) (e : exn) :
  py_get config "voice" (JObj ∅)
    ≫= (λ voice_config, py_get voice_config "factoryNotifications" (JBool true))
  = Raise e →
  is_Exception e = true.
Proof.
  destruct (py_get config "voice" (JObj ∅)) as [voice_config|e'] eqn:Hvoice; simpl.
  - apply py_get_Raise.
  - intros [= <-]. by eapply py_get_Raise.
Qed.

(** A command other than the status query that ends without raising has
    rewritten the file: the loaded dictionary with a fresh voice object. *)
Lemma set_voice_state_Ok (new_state : bool) (w w' : world) (u : unit) :
  set_voice_state new_state w = (Ok u, w') →
  ∃ m : gmap string json,
    config_file w = Parsed (JObj m) ∧
    config_file w' = Parsed (JObj (<["voice" := JObj (voice_settings new_state)]> m)).
Proof.
  rewrite set_voice_state_eq.
  destruct (config_file w) as [| err | err | config | err | err]; try done.
  destruct config as [| b | z | f | s | l | m]; try done. simpl.
  destruct (config_save w); [|done..]. intros [= _ <-]. by exists m.
Qed.

(** An exit request of [set_voice_state] carries status 1. *)
Lemma set_voice_state_exit (new_state : bool) (w w' : world) (code : Z) :
  set_voice_state new_state w = (Raise (SystemExit code), w') → code = 1.
Proof.
  rewrite set_voice_state_eq.
  destruct (config_file w) as [| err | err | config | err | err];
    try (by intros [= <-]).
  destruct config as [| b | z | f | s | l | m]; try done. simpl.
  destruct (config_save w); [done | by intros [= <-]..].
Qed.

Lemma command_finish_success (mo : mode) (w w' : world) :
  mo ≠ Status →
  finish (command mo w) = (0, w') →
  ∃ (m : gmap string json) (b : bool),
    config_file w = Parsed (JObj m) ∧
    config_file w' = Parsed (JObj (<["voice" := JObj (voice_settings b)]> m)).
Proof.
  intros Hmode.
  assert (∀ b r, set_voice_state b w = r → finish r = (0, w') →
            ∃ m, config_file w = Parsed (JObj m) ∧
              config_file w' = Parsed (JObj (<["voice" := JObj (voice_settings b)]> m)))
    as Hset.
  { intros b [[u|e] w1] Hrun; simpl.
    - intros [= <-]. by eapply set_voice_state_Ok.
    - destruct e; try done. intros [= -> _].
      by apply set_voice_state_exit in Hrun. }
  destruct mo; simpl; [| |clear Hset|done].
  - intros (m & ? & ?)%(Hset true); [by exists m, true | done].
  - intros (m & ? & ?)%(Hset false); [by exists m, false | done].
  - rewrite toggle_voice_state_eq.
    destruct (config_file w) as [| err | err | config | err | err] eqn:Hfile;
      try done.
    destruct (py_get config "voice" (JObj ∅) ≫= _) as [current_state|e] eqn:Hget;
      [|apply read_flag_Raise in Hget; by destruct e].
    destruct (set_voice_state _ w) as [[u|e] w1] eqn:Hrun; simpl.
    + intros [= <-]. apply set_voice_state_Ok in Hrun as (m & Hm & Hw1).
      exists m, (negb (truthy current_state)). split; [congruence | done].
    + destruct e; try done. intros [= -> _].
      by apply set_voice_state_exit in Hrun.
Qed.

(** C2, as amended: with a missing, unreadable or malformed configuration
    file every mode prints a diagnostic and leaves the file alone.  Enable,
    disable and toggle then end the process with exit status 1.  The status
    mode ends with exit status 0 whenever the loader itself reports the
    problem (the file is missing, cannot be opened or decoded, or is not
    JSON), because it intercepts the exit request of the loader; only when
    the existence check of the loader raises (the path cannot be examined)
    does the error reach the handler of [main], and then the status mode too
    ends with exit status 1. *)
Theorem unusable_config_exit_status (a : args) (w : world) :
  unusable (config_file w) →
  diagnostic w ≠ [] ∧
  run a w = (match mode_of a, config_file w with
             | Status, Inaccessible _ => 1
             | Status, _ => 0
             | _, _ => 1
             end,
             add_lines w (diagnostic w)).
Proof.
  intros Hbad. split.
  - unfold diagnostic, load_diagnostic. by destruct (config_file w).
  - rewrite run_eq. unfold diagnostic. destruct (mode_of a); simpl.
    + rewrite set_voice_state_eq. by destruct (config_file w).
    + rewrite set_voice_state_eq. by destruct (config_file w).
    + rewrite toggle_voice_state_eq. by destruct (config_file w).
    + rewrite get_voice_status_unusable by done. by destruct (config_file w).
Qed.

Lemma voice_settings_lockstep (b : bool) : lockstep (voice_settings b) b.
Proof. unfold lockstep, voice_settings. by destruct b. Qed.

(** C8: after an enable, disable or toggle run that ends with exit status 0
    the configuration file holds a voice object whose five flags are equal,
    with [nameUsageRate] 0.7 when they are true and 0.0 when they are
    false. *)
Theorem lockstep_after_success (a : args) (w w' : world) :
  mode_of a ≠ Status →
  run a w = (0, w') →
  ∃ (m voice : gmap string json) (b : bool),
    config_file w' = Parsed (JObj m) ∧
    m !! "voice" = Some (JObj voice) ∧
    lockstep voice b.
Proof.
  intros Hmode. rewrite run_eq.
  intros (m & b & _ & Hfile)%command_finish_success; [|done].
  eexists _, (voice_settings b), b. split; [done|].
  split; [by rewrite lookup_insert_eq | apply voice_settings_lockstep].
Qed.

(** C10: an enable, disable or toggle run that ends with exit status 0
    writes back the loaded dictionary with its [voice] entry replaced by the
    fresh voice object, whatever the old entry held; every other top-level
    key keeps its value and no key is added or lost besides [voice]. *)
Theorem other_keys_preserved (a : args) (w w' : world) :
  mode_of a ≠ Status →
  run a w = (0, w') →
  ∃ (m m' : gmap string json) (b : bool),
    config_file w = Parsed (JObj m) ∧
    config_file w' = Parsed (JObj m') ∧
    m' !! "voice" = Some (JObj (voice_settings b)) ∧
    (∀ key : string, key ≠ "voice" → m' !! key = m !! key) ∧
    delete "voice" m' = delete "voice" m.
Proof.
  intros Hmode. rewrite run_eq.
  intros (m & b & Hw & Hw')%command_finish_success; [|done].
  eexists m, _, b. split_and!; [done | done | | |].
  - by rewrite lookup_insert_eq.
  - intros key Hkey. by rewrite lookup_insert_ne.
  - by rewrite delete_insert_eq.
Qed.

End voice_control_commands.

(** ** The fallback cascade *)

Section cascade.
Context `{StrOps}.

(** The loop invokes the listed scripts in order and stops after the first
    one that exits with 0. *)
Lemma run_fallback_first_success (w : world) (message : string)
    (pre : list tts_script) (script : tts_script) (post : list tts_script) :
  Forall (λ s, caught_failure (subprocess_run w s message)) pre →
  subprocess_run w script message = Exited 0 →
  run_fallback w message (pre ++ script :: post) =
    ((λ s, (s, message)) <$> (pre ++ [script])%list, Ok ()).
Proof.
  intros Hpre Hok. induction Hpre as [|s pre Hs _ IH]; simpl.
  - by rewrite Hok.
  - rewrite IH. destruct (subprocess_run w s message) as [[| |]| |]; done.
Qed.

(** When every listed script fails the loop has tried them all and ends
    without an error. *)
Lemma run_fallback_exhausted (w : world) (message : string) (scripts : list tts_script) :
  Forall (λ s, caught_failure (subprocess_run w s message)) scripts →
  run_fallback w message scripts = ((λ s, (s, message)) <$> scripts, Ok ()).
Proof.
  induction 1 as [|s scripts Hs _ IH]; simpl; [done|].
  rewrite IH. destruct (subprocess_run w s message) as [[| |]| |]; done.
Qed.

(** Without a key and without the local script the key-based selection finds
    nothing. *)
Lemma get_tts_script_path_None (w : world) :
  getenv_set w "ELEVENLABS_API_KEY" = false →
  getenv_set w "OPENAI_API_KEY" = false →
  tts_script_exists w pyttsx3_tts = false →
  get_tts_script_path w = None.
Proof. unfold get_tts_script_path. by intros -> -> ->. Qed.

(** The announcement makes no invocation at all when the key-based
    selection finds nothing, whichever scripts the cascade would list. *)
Lemma announce_gated_by_selection (w : world) :
  get_tts_script_path w = None → announce_factory_progress w = [].
Proof.
  intros Hgate. unfold announce_factory_progress. rewrite Hgate.
  destruct (is_voice_enabled w) as [enabled|]; [|done].
  destruct (negb (truthy enabled)); [done|].
  destruct (stdin w) as [input_data|]; [|done].
  destruct (should_announce_factory_progress input_data)
    as [[[should_announce phase] is_completed]|]; [|done].
  by destruct (negb should_announce || _).
Qed.

End cascade.

(** ** More about the phase classifier *)

Section classifier_order.
Context `{StrOps}.

Lemma later_entries_not_earlier (s : string) (items : list (Z * list string)) (p : Z) :
  Forall (λ item, p < item.1) items →
  existsb (λ '(q, patterns), (q <? p) && existsb (λ pattern, str_in pattern s) patterns)
          items = false.
Proof.
  induction 1 as [|[q qs] items Hq _ IH]; simpl; [done|].
  simpl in Hq. replace (q <? p) with false by lia. by rewrite IH.
Qed.

(** On a list of entries with ascending phase numbers, the loop answers [p]
    exactly when an entry of [p] has a pattern in the text and no entry with
    a lower number has one. *)
Lemma first_phase_Some_iff (s : string) (items : list (Z * list string)) (p : Z) :
  StronglySorted (λ x y, x.1 < y.1) items →
  first_phase s items = Some p ↔
    (∃ patterns, (p, patterns) ∈ items ∧
                 existsb (λ pattern, str_in pattern s) patterns = true) ∧
    existsb (λ '(q, patterns), (q <? p) && existsb (λ pattern, str_in pattern s) patterns)
            items = false.
Proof.
  induction 1 as [|[q qs] items Hsorted IH Hlater]; simpl.
  - split; [done|]. by intros [(? & ?%elem_of_nil & _) _].
  - destruct (existsb (λ pattern, str_in pattern s) qs) eqn:Hhit.
    + rewrite andb_true_r. split.
      * intros [= <-]. split; [exists qs; split; [left | done]|].
        rewrite Z.ltb_irrefl. simpl. by apply later_entries_not_earlier.
      * intros [(patterns & Hin & _) [Hlt _]%orb_false_elim].
        apply elem_of_cons in Hin as [[= -> _]|Hin]; [done|].
        rewrite Forall_forall in Hlater.
        specialize (Hlater (p, patterns) Hin). simpl in Hlater. lia.
    + rewrite andb_false_r. simpl. rewrite IH. split.
      * intros [(patterns & Hin & Hp) Hearlier].
        split; [exists patterns; split; [by right | done] | done].
      * intros [(patterns & Hin & Hp) Hearlier]. split; [|done].
        apply elem_of_cons in Hin as [[= -> ->]|Hin]; [congruence|].
        by exists patterns.
Qed.

Lemma phase_patterns_sorted : StronglySorted (λ x y, x.1 < y.1) phase_patterns.
Proof. unfold phase_patterns. repeat constructor; simpl; lia. Qed.

(** X1: first match wins, in ascending phase order: a text is classified as
    phase [p] exactly when it is not empty, its lower-cased form contains a
    trigger pattern of phase [p], and it contains no trigger pattern of a
    phase with a lower number. *)
Theorem detect_factory_phase_Some_iff (text : string) (p : Z) :
  detect_factory_phase text = Some p ↔
    text ≠ "" ∧
    (∃ patterns, (p, patterns) ∈ phase_patterns ∧
                 existsb (λ pattern, str_in pattern (str_lower text)) patterns = true) ∧
    earlier_trigger p (str_lower text) = false.
Proof.
  unfold detect_factory_phase, earlier_trigger.
  destruct (String.eqb_spec text "") as [->|Hne].
  - split; [done | by intros [? _]].
  - rewrite (first_phase_Some_iff _ _ _ phase_patterns_sorted). tauto.
Qed.

Lemma first_phase_None_iff (s : string) (items : list (Z * list string)) :
  first_phase s items = None ↔
  ∀ pattern, pattern ∈ concat (items.*2) → str_in pattern s = false.
Proof.
  induction items as [|[q qs] items IH]; simpl.
  - split; [|done]. by intros _ ? ?%elem_of_nil.
  - destruct (existsb (λ pattern, str_in pattern s) qs) eqn:Hhit.
    + split; [done|]. intros Hall.
      apply existsb_exists in Hhit as (pattern & Hin%list_elem_of_In & Hp).
      rewrite Hall in Hp; [done|]. apply elem_of_app. by left.
    + rewrite IH. split.
      * intros Hall pattern [Hin|Hin]%elem_of_app; [|by apply Hall].
        destruct (str_in pattern s) eqn:Hp; [|done].
        assert (existsb (λ pattern, str_in pattern s) qs = true); [|congruence].
        apply existsb_exists. exists pattern. by rewrite <- list_elem_of_In.
      * intros Hall pattern Hin. apply Hall, elem_of_app. by right.
Qed.

(** X2: the classifier answers nothing exactly when the text is empty or its
    lower-cased form contains none of the 21 trigger patterns. *)
Theorem detect_factory_phase_None_iff (text : string) :
  detect_factory_phase text = None ↔
    text = "" ∨
    ∀ pattern, pattern ∈ all_triggers → str_in pattern (str_lower text) = false.
Proof.
  unfold detect_factory_phase, all_triggers.
  destruct (String.eqb_spec text "") as [->|Hne].
  - split; [by left | done].
  - rewrite first_phase_None_iff. tauto.
Qed.

End classifier_order.

(** ** More about the dispatcher *)

Section dispatcher_edges.
Context `{StrOps}.

Lemma todo_body_shape (todo : json) (d : decision) :
  todo_body todo = Ok (Some d) →
  ∃ p, 1 ≤ p ≤ 5 ∧ d = (true, Some p, Some (p =? 5)).
Proof.
  unfold todo_body.
  destruct (py_get todo "content" (JStr "")) as [c|]; simpl; [|done].
  destruct (py_lower c) as [content|]; simpl; [|done].
  destruct (py_get todo "status" (JStr "")) as [status|]; simpl; [|done].
  destruct (is_factory_todo content); [|done].
  destruct (detect_factory_phase content) as [p|] eqn:Hp; [|done].
  apply detect_factory_phase_range in Hp.
  destruct (negb (p =? 0)); [|done].
  destruct (eq_str status "completed"), (p =? 5) eqn:H5,
    (eq_str status "in_progress"), (p <? 5) eqn:Hlt; simpl;
    intros Hd; try discriminate Hd; injection Hd as <-;
    exists p; (split; [done|]); rewrite H5; try done;
    exfalso; apply Z.eqb_eq in H5; apply Z.ltb_lt in Hlt; lia.
Qed.

Lemma todos_loop_shape (todos : list json) (d : decision) :
  todos_loop todos = Ok d →
  d = (false, None, None) ∨ ∃ p, 1 ≤ p ≤ 5 ∧ d = (true, Some p, Some (p =? 5)).
Proof.
  induction todos as [|todo todos IH]; simpl.
  - intros [= <-]. by left.
  - destruct (todo_body todo) as [[d'|]|] eqn:Hbody; simpl; [|done..].
    intros [= <-]. right. by eapply todo_body_shape.
Qed.

Lemma should_announce_shape (input_data : json) (d : decision) :
  should_announce_factory_progress input_data = Ok d →
  d = (false, None, None) ∨ ∃ p, 1 ≤ p ≤ 5 ∧ d = (true, Some p, Some (p =? 5)).
Proof.
  unfold should_announce_factory_progress.
  destruct (py_get input_data "tool_name" (JStr "")) as [tool_name|]; simpl; [|done].
  destruct (negb (eq_str tool_name "TodoWrite")); [intros [= <-]; by left|].
  destruct (py_get input_data "tool_input" (JObj ∅)) as [tool_input|]; simpl; [|done].
  destruct (py_get tool_input "todos" (JArr [])) as [todos|]; simpl; [|done].
  destruct (negb (truthy todos)); [intros [= <-]; by left|].
  destruct (py_iter todos) as [items|]; simpl; [|done].
  apply todos_loop_shape.
Qed.

(** X3: whatever the event, a decision of the dispatcher is either "do not
    announce" with no phase and no flag, or "announce" with a phase in 1..5
    and a completion flag that is set exactly for phase 5. *)
Theorem decision_is_well_formed (input_data : json) (d : decision) :
  should_announce_factory_progress input_data = Ok d →
  d = (false, None, None) ∨ ∃ p, 1 ≤ p ≤ 5 ∧ d = (true, Some p, Some (p =? 5)).
Proof. apply should_announce_shape. Qed.

(** X4: an event object that is not a [TodoWrite] call, or that carries no
    todo list or an empty one (the [tool_input] or [todos] key missing, or a
    falsy [todos] value), is not announced and raises nothing. *)
Theorem no_todo_list_no_announcement (m : gmap string json) :
  default (JStr "") (m !! "tool_name") ≠ JStr "TodoWrite" ∨
  (∃ tool_input : gmap string json,
     default (JObj ∅) (m !! "tool_input") = JObj tool_input ∧
     truthy (default (JArr []) (tool_input !! "todos")) = false) →
  should_announce_factory_progress (JObj m) = Ok (false, None, None).
Proof.
  unfold should_announce_factory_progress. simpl.
  destruct (eq_str_reflect (default (JStr "") (m !! "tool_name")) "TodoWrite")
    as [Hname|Hname]; simpl; [|done].
  intros [?|(tool_input & -> & Hfalsy)]; [done|].
  simpl. by rewrite Hfalsy.
Qed.

(** X5: the loop passes over an item without a [content] key, an item whose
    content has no keyword of the broader set, and an item whose content is
    assigned no phase, whatever its status is. *)
Theorem irrelevant_item_is_skipped (t : gmap string json) :
  t !! "content" = None ∨
  (∃ content, t !! "content" = Some (JStr content) ∧
     (is_factory_todo (str_lower content) = false ∨
      detect_factory_phase (str_lower content) = None)) →
  todo_body (JObj t) = Ok None.
Proof.
  unfold todo_body. simpl.
  intros [->|(content & -> & Hskip)]; simpl.
  - by rewrite str_lower_empty.
  - destruct Hskip as [->| ->]; [done|].
    by destruct (is_factory_todo (str_lower content)).
Qed.

Lemma todo_body_unreadable (todo : json) :
  unreadable_item todo → ∃ msg, todo_body todo = Raise (AttributeError msg).
Proof.
  unfold unreadable_item, todo_body.
  destruct todo as [| | | | | |t]; simpl; try by eexists.
  destruct (t !! "content") as [[]|]; simpl; try done; by eexists.
Qed.

Lemma todos_loop_unreadable (pre : list json) (bad : json) (post : list json) :
  Forall (λ todo, todo_body todo = Ok None) pre →
  unreadable_item bad →
  ∃ msg, todos_loop (pre ++ bad :: post) = Raise (AttributeError msg).
Proof.
  intros Hpre (msg & Hbad)%todo_body_unreadable.
  exists msg. rewrite todos_loop_skip by done. simpl. by rewrite Hbad.
Qed.

(** X6: an item that is not a dictionary, or whose content is not a string,
    met before any announced item makes the dispatcher raise
    [AttributeError]; the hook swallows it and invokes no backend. *)
Theorem unreadable_item_silences_hook (w : world) (input_data : json)
    (pre : list json) (bad : json) (post : list json) :
  stdin w = Some input_data →
  todo_write input_data (pre ++ bad :: post) →
  Forall (λ todo, todo_body todo = Ok None) pre →
  unreadable_item bad →
  (∃ msg, should_announce_factory_progress input_data = Raise (AttributeError msg)) ∧
  announce_factory_progress w = [].
Proof.
  intros Hstdin Hev Hpre Hbad.
  destruct (todos_loop_unreadable pre bad post Hpre Hbad) as [msg Hraise].
  rewrite <- (should_announce_todo_write _ _ Hev) in Hraise.
  split; [by exists msg|].
  unfold announce_factory_progress. rewrite Hstdin, Hraise.
  destruct (is_voice_enabled w) as [enabled|]; [|done].
  by destruct (negb (truthy enabled)).
Qed.

End dispatcher_edges.

(** ** More about the message generator *)

Lemma string_app_nonempty_l (a b : string) : a ≠ "" → a ++ b ≠ "".
Proof. destruct a; [done | by rewrite string_app_cons]. Qed.

Lemma string_app_nonempty_r (a b : string) : b ≠ "" → a ++ b ≠ "".
Proof.
  intros Hb. destruct a; [by rewrite string_app_nil | by rewrite string_app_cons].
Qed.

(** Each message template is a non-empty text around the name. *)
Ltac nonempty_text :=
  first [ done
        | apply string_app_nonempty_l; done
        | apply string_app_nonempty_r; nonempty_text ].

(** The name occurs in a text built around it. *)
Ltac name_occurs :=
  apply str_in_spec;
  first [ by eexists "", _
        | by eexists _, ""
        | by eexists _, _ ].

Lemma string_app_nil_r (a : string) : a ++ "" = a.
Proof. induction a as [|c a IH]; [done | by rewrite string_app_cons, IH]. Qed.

(** The pool a message comes from: the completion pool for a completed
    phase 5, the pool listed for the phase otherwise. *)
Lemma get_factory_message_pool (r : rng) (phase : Z) (engineer_name : option string)
    (is_completed : bool) (message : string) :
  get_factory_message r phase engineer_name is_completed = Some message →
  ∃ pool : pools,
    message = choice r (if use_name r engineer_name then personal pool else generic pool) ∧
    (pool = {| generic := completion_messages;
               personal := personal_completion_messages (name_text engineer_name) |} ∨
     (phase, pool) ∈ phase_messages (name_text engineer_name)).
Proof.
  unfold get_factory_message. intros Hmessage.
  destruct (is_completed && (phase =? 5)).
  - eexists. split; [|by left]. simpl.
    destruct (use_name r engineer_name); by injection Hmessage as <-.
  - destruct (list_to_map _ !! phase) as [pool|] eqn:Hpool; [|done].
    apply elem_of_list_to_map_2 in Hpool.
    exists pool. split; [|by right].
    destruct (use_name r engineer_name); by injection Hmessage as <-.
Qed.

Lemma pool_cases (n : string) (pool : pools) (P : pools → Prop) :
  P {| generic := completion_messages; personal := personal_completion_messages n |} →
  Forall (λ entry, P entry.2) (phase_messages n) →
  (pool = {| generic := completion_messages;
             personal := personal_completion_messages n |} ∨
   ∃ phase, (phase, pool) ∈ phase_messages n) →
  P pool.
Proof.
  intros Hcompletion Hphases [->|[phase Hin]]; [done|].
  rewrite Forall_forall in Hphases. apply (Hphases (phase, pool) Hin).
Qed.

Lemma pools_not_empty (n : string) (pool : pools) :
  (pool = {| generic := completion_messages;
             personal := personal_completion_messages n |} ∨
   ∃ phase, (phase, pool) ∈ phase_messages n) →
  generic pool ≠ [] ∧ personal pool ≠ [].
Proof.
  apply (pool_cases n pool (λ pool, generic pool ≠ [] ∧ personal pool ≠ [])); [done|].
  unfold phase_messages. by repeat constructor.
Qed.

Lemma pools_texts_not_empty (n : string) (pool : pools) :
  (pool = {| generic := completion_messages;
             personal := personal_completion_messages n |} ∨
   ∃ phase, (phase, pool) ∈ phase_messages n) →
  Forall (λ message, message ≠ "") (generic pool ++ personal pool).
Proof.
  apply (pool_cases n pool
           (λ pool, Forall (λ message, message ≠ "") (generic pool ++ personal pool))).
  - unfold completion_messages, personal_completion_messages.
    cbn [app generic personal].
    repeat (constructor; [nonempty_text|]). constructor.
  - unfold phase_messages.
    repeat (constructor; cbn [app snd generic personal]).
    all: nonempty_text.
Qed.

Lemma pools_personal_mention_name (n : string) (pool : pools) :
  (pool = {| generic := completion_messages;
             personal := personal_completion_messages n |} ∨
   ∃ phase, (phase, pool) ∈ phase_messages n) →
  Forall (λ message, str_in n message = true) (personal pool).
Proof.
  apply (pool_cases n pool
           (λ pool, Forall (λ message, str_in n message = true) (personal pool))).
  - unfold personal_completion_messages. cbn [personal].
    repeat (constructor; [name_occurs|]). constructor.
  - unfold phase_messages. repeat (constructor; cbn [snd personal]).
    all: name_occurs.
Qed.

Lemma get_factory_message_nonempty (r : rng) (phase : Z)
    (engineer_name : option string) (is_completed : bool) (message : string) :
  rng_ok r →
  get_factory_message r phase engineer_name is_completed = Some message →
  message ≠ "".
Proof.
  intros Hr (pool & -> & Hpool)%get_factory_message_pool.
  assert (pool = {| generic := completion_messages;
                    personal := personal_completion_messages (name_text engineer_name) |} ∨
          ∃ phase, (phase, pool) ∈ phase_messages (name_text engineer_name)) as Hpool'
    by (destruct Hpool; eauto).
  destruct (pools_not_empty _ _ Hpool') as [Hg Hp].
  pose proof (pools_texts_not_empty _ _ Hpool') as Htexts.
  rewrite Forall_forall in Htexts. apply Htexts, elem_of_app.
  destruct (use_name r engineer_name); [right | left]; by apply choice_in.
Qed.

(** X7: a message the generator returns is never the empty text, so that the
    caller's guard on an empty message only ever catches "no message". *)
Theorem generated_message_not_empty (r : rng) (phase : Z)
    (engineer_name : option string) (is_completed : bool) (message : string) :
  rng_ok r →
  get_factory_message r phase engineer_name is_completed = Some message →
  message ≠ "".
Proof. apply get_factory_message_nonempty. Qed.

(** X8: when the generator personalizes (a non-empty name and a draw below
    0.7), the message it returns contains the name. *)
Theorem personalized_message_mentions_name (r : rng) (phase : Z)
    (engineer_name : string) (is_completed : bool) (message : string) :
  rng_ok r →
  use_name r (Some engineer_name) = true →
  get_factory_message r phase (Some engineer_name) is_completed = Some message →
  str_in engineer_name message = true.
Proof.
  intros Hr Huse (pool & -> & Hpool)%get_factory_message_pool.
  rewrite Huse. simpl in Hpool.
  assert (pool = {| generic := completion_messages;
                    personal := personal_completion_messages engineer_name |} ∨
          ∃ phase, (phase, pool) ∈ phase_messages engineer_name) as Hpool'
    by (destruct Hpool; eauto).
  destruct (pools_not_empty _ _ Hpool') as [_ Hp].
  pose proof (pools_personal_mention_name _ _ Hpool') as Hmention.
  rewrite Forall_forall in Hmention. by apply Hmention, choice_in.
Qed.

(** ** Backend selection and the cascade *)

Lemma fallback_scripts_spec (w : world) (s : tts_script) :
  s ∈ fallback_scripts w ↔ tts_script_exists w s = true.
Proof.
  unfold fallback_scripts. rewrite list_elem_of_filter. split; [by intros [? _]|].
  intros Hs. split; [done|]. destruct s; set_solver.
Qed.

(** X9: the script the key-based selection picks exists, is among the scripts
    the cascade lists, and, when it is a cloud backend, has its API key set;
    the two hooks select alike. *)
Theorem selected_script_is_usable (w : world) (s : tts_script) :
  get_tts_script_path w = Some s →
  tts_script_exists w s = true ∧
  s ∈ fallback_scripts w ∧
  (s = elevenlabs_tts → getenv_set w "ELEVENLABS_API_KEY" = true) ∧
  (s = openai_tts → getenv_set w "OPENAI_API_KEY" = true) ∧
  notification.get_tts_script_path w = Some s.
Proof.
  intros Hsel. split_and!; [| | | |done].
  2: apply fallback_scripts_spec.
  all: revert Hsel; unfold get_tts_script_path;
    destruct (getenv_set w "ELEVENLABS_API_KEY"),
      (tts_script_exists w elevenlabs_tts) eqn:He,
      (getenv_set w "OPENAI_API_KEY"),
      (tts_script_exists w openai_tts) eqn:Ho,
      (tts_script_exists w pyttsx3_tts) eqn:Hp; simpl;
    intros [= <-]; try done; by intros [=].
Qed.

Lemma goes_on_caught_failure (r : run_result) :
  goes_on r = true ↔ caught_failure r.
Proof. destruct r as [[| |]| |]; simpl; split; done. Qed.

Lemma run_fallback_cons (w : world) (message : string) (s : tts_script)
    (rest : list tts_script) :
  (run_fallback w message (s :: rest)).1 =
    (s, message) :: (if goes_on (subprocess_run w s message)
                     then (run_fallback w message rest).1 else []).
Proof.
  simpl. destruct (run_fallback w message rest) as [made r].
  by destruct (subprocess_run w s message) as [[| |]| |].
Qed.

Lemma run_fallback_prefix (w : world) (message : string) (scripts : list tts_script) :
  ∃ k, (run_fallback w message scripts).1 = (λ s, (s, message)) <$> take k scripts.
Proof.
  induction scripts as [|s scripts [k IH]]; [by exists 0%nat|].
  rewrite run_fallback_cons.
  destruct (goes_on (subprocess_run w s message)).
  - exists (S k). simpl. by rewrite IH.
  - by exists 1%nat.
Qed.

(** Only the last invocation of the loop can have ended otherwise than by a
    failure the loop catches. *)
Lemma run_fallback_failures (w : world) (message : string) (scripts : list tts_script)
    (pre : list invocation) (x : invocation) (post : list invocation) :
  (run_fallback w message scripts).1 = (pre ++ x :: post)%list →
  post ≠ [] →
  caught_failure (subprocess_run w x.1 x.2).
Proof.
  revert pre. induction scripts as [|s scripts IH]; intros pre.
  - by destruct pre.
  - rewrite run_fallback_cons.
    destruct (goes_on (subprocess_run w s message)) eqn:Hgo.
    + destruct pre as [|y pre]; simpl.
      * intros [= <- _] _. simpl. by apply goes_on_caught_failure.
      * intros [= _ Hmade]. by eapply IH.
    + destruct pre as [|y pre]; simpl.
      * intros [= _ <-]. done.
      * intros [= _ Hnil]. by destruct pre.
Qed.

Section cascade_order.
Context `{StrOps}.

(** The hook either invokes nothing or runs the cascade on one message. *)
Lemma announce_cases (w : world) :
  announce_factory_progress w = [] ∨
  ∃ message, announce_factory_progress w = (run_fallback w message (fallback_scripts w)).1.
Proof.
  unfold announce_factory_progress.
  destruct (is_voice_enabled w) as [enabled|]; [|by left].
  destruct (negb (truthy enabled)); [by left|].
  destruct (stdin w) as [input_data|]; [|by left].
  destruct (should_announce_factory_progress input_data)
    as [[[should_announce phase] is_completed]|]; [|by left].
  destruct (negb should_announce || _); [by left|].
  destruct (get_tts_script_path w); [|by left].
  destruct (get_factory_message _ _ _ _) as [message|]; [|by left].
  destruct (String.eqb message ""); [by left|].
  right. by exists message.
Qed.

(** X10: the invocations of the factory hook are an initial stretch of the
    list ElevenLabs, OpenAI, pyttsx3 with the scripts that do not exist left
    out, all with one and the same message: at most three, each for a script
    that exists, in that order, none twice. *)
Theorem invocations_follow_cascade (w : world) :
  (∃ message k,
     announce_factory_progress w =
       (λ s, (s, message)) <$>
         take k (filter (λ s, tts_script_exists w s = true)
                        [elevenlabs_tts; openai_tts; pyttsx3_tts])) ∧
  (length (announce_factory_progress w) ≤ 3)%nat ∧
  (∀ inv, inv ∈ announce_factory_progress w → tts_script_exists w inv.1 = true).
Proof.
  assert (∃ message k,
            announce_factory_progress w =
              (λ s, (s, message)) <$> take k (fallback_scripts w)) as (message & k & Heq).
  { destruct (announce_cases w) as [->|[message ->]].
    - by exists "", 0%nat.
    - destruct (run_fallback_prefix w message (fallback_scripts w)) as [k Hk].
      by exists message, k. }
  split; [by exists message, k|]. rewrite Heq. split.
  - rewrite length_fmap, length_take.
    assert (length (fallback_scripts w) ≤ 3)%nat; [|lia].
    unfold fallback_scripts.
    etrans; [apply length_filter|]. done.
  - intros inv (s & -> & Hs%elem_of_take)%list_elem_of_fmap.
    destruct Hs as (i & Hs%list_elem_of_lookup_2 & _). simpl.
    by apply fallback_scripts_spec.
Qed.

(** X11: the cascade goes on only after a failure it catches: every
    invocation of the factory hook but the last one ended with a non-zero
    exit status or a timeout. *)
Theorem only_the_last_invocation_can_succeed (w : world)
    (pre : list invocation) (x : invocation) (post : list invocation) :
  announce_factory_progress w = (pre ++ x :: post)%list →
  post ≠ [] →
  caught_failure (subprocess_run w x.1 x.2).
Proof.
  destruct (announce_cases w) as [->|[message ->]].
  - by destruct pre.
  - apply run_fallback_failures.
Qed.

(** A hook that is ready to speak runs the cascade on the generated message. *)
Lemma announce_ready (w : world) (p : Z) (c : bool) (message : string) :
  rng_ok (random_source w) →
  ready w p c →
  get_factory_message (random_source w) p (Some (engineer_name_of w)) c = Some message →
  announce_factory_progress w = (run_fallback w message (fallback_scripts w)).1.
Proof.
  intros Hr ((enabled & Henabled & Htruthy) & (input_data & Hstdin & Hdecision) & [s Hs])
    Hmessage.
  pose proof (get_factory_message_nonempty _ _ _ _ _ Hr Hmessage) as Hne.
  destruct (should_announce_shape _ _ Hdecision) as [[=]|(p' & Hrange & [= -> _])].
  unfold announce_factory_progress.
  rewrite Henabled, Htruthy, Hstdin, Hdecision, Hs. simpl.
  replace (p' =? 0) with false by lia. simpl.
  unfold engineer_name_of in Hmessage. rewrite Hmessage.
  by apply String.eqb_neq in Hne as ->.
Qed.

(** X12: when the hook is ready to speak and every listed script fails with
    a non-zero exit status or a timeout, each script the cascade lists is
    invoked once, in order, with the generated message, and that is all. *)
Theorem cascade_tries_every_script (w : world) (p : Z) (c : bool) (message : string) :
  rng_ok (random_source w) →
  ready w p c →
  get_factory_message (random_source w) p (Some (engineer_name_of w)) c = Some message →
  Forall (λ s, caught_failure (subprocess_run w s message)) (fallback_scripts w) →
  announce_factory_progress w = (λ s, (s, message)) <$> fallback_scripts w.
Proof.
  intros Hr Hready Hmessage Hfail.
  rewrite (announce_ready w p c message Hr Hready Hmessage).
  by rewrite run_fallback_exhausted.
Qed.

(** X13: when the hook is ready to speak, the scripts before the first one
    that exits with 0 are invoked, then that one, and nothing after it. *)
Theorem cascade_stops_at_first_success (w : world) (p : Z) (c : bool) (message : string)
    (pre : list tts_script) (s : tts_script) (post : list tts_script) :
  rng_ok (random_source w) →
  ready w p c →
  get_factory_message (random_source w) p (Some (engineer_name_of w)) c = Some message →
  fallback_scripts w = (pre ++ s :: post)%list →
  Forall (λ s', caught_failure (subprocess_run w s' message)) pre →
  subprocess_run w s message = Exited 0 →
  announce_factory_progress w = (λ s', (s', message)) <$> (pre ++ [s])%list.
Proof.
  intros Hr Hready Hmessage Hscripts Hpre Hok.
  rewrite (announce_ready w p c message Hr Hready Hmessage), Hscripts.
  by rewrite run_fallback_first_success.
Qed.

Lemma run_fallback_launch_failure (w : world) (message : string)
    (pre : list tts_script) (s : tts_script) (post : list tts_script) :
  Forall (λ s', caught_failure (subprocess_run w s' message)) pre →
  subprocess_run w s message = LaunchFailed →
  (run_fallback w message (pre ++ s :: post)).1 =
    (λ s', (s', message)) <$> (pre ++ [s])%list.
Proof.
  intros Hpre Hfail. induction Hpre as [|s' pre Hs' _ IH]; simpl.
  - by rewrite Hfail.
  - destruct (run_fallback w message (pre ++ s :: post)) as [made r]. simpl in IH.
    destruct (subprocess_run w s' message) as [[| |]| |]; simpl; by rewrite ?IH.
Qed.

(** X14: a backend that cannot be started ends the cascade: the exception is
    not one the loop catches, so the scripts listed after it are not tried. *)
Theorem launch_failure_ends_cascade (w : world) (p : Z) (c : bool) (message : string)
    (pre : list tts_script) (s : tts_script) (post : list tts_script) :
  rng_ok (random_source w) →
  ready w p c →
  get_factory_message (random_source w) p (Some (engineer_name_of w)) c = Some message →
  fallback_scripts w = (pre ++ s :: post)%list →
  Forall (λ s', caught_failure (subprocess_run w s' message)) pre →
  subprocess_run w s message = LaunchFailed →
  announce_factory_progress w = (λ s', (s', message)) <$> (pre ++ [s])%list.
Proof.
  intros Hr Hready Hmessage Hscripts Hpre Hfail.
  rewrite (announce_ready w p c message Hr Hready Hmessage), Hscripts.
  by apply run_fallback_launch_failure.
Qed.

End cascade_order.

(** ** The plain notification hook *)

(** The voice check of the hooks never raises. *)
Lemma is_voice_enabled_Ok (w : world) : ∃ v, notification.is_voice_enabled w = Ok v.
Proof.
  unfold notification.is_voice_enabled.
  destruct (config_file w) as [| | |[| | | | | |m]| |]; simpl; eauto.
  destruct (m !! "voice") as [[| | | | | |voice]|]; simpl; eauto.
Qed.

Section plain_hook.
Context `{StrOps}.
Import notification.

(** X15: the plain hook makes at most one invocation, with no fallback: when
    voice is enabled it invokes the script the key-based selection picks, once,
    with a message of its generic pool or, when it personalizes, of its
    personalized pool, and what becomes of the child changes nothing; when
    voice is disabled or no script is selected it invokes nothing. *)
Theorem plain_hook_invokes_selected_script (w : world) :
  rng_ok (random_source w) →
  (∀ outcome, announce_notification (set_subprocess_run w outcome) = announce_notification w) ∧
  ∃ enabled, is_voice_enabled w = Ok enabled ∧
    match truthy enabled, get_tts_script_path w with
    | true, Some s =>
        ∃ message,
          announce_notification w = [(s, message)] ∧
          message ∈ (if notification_uses_name w
                     then personal_messages (engineer_name_of w)
                     else notification_messages)
    | _, _ => announce_notification w = []
    end.
Proof.
  intros Hr. split; [done|].
  unfold announce_notification.
  destruct (is_voice_enabled w) as [enabled|e] eqn:Henabled.
  - exists enabled. split; [done|].
    destruct (truthy enabled); simpl; [|done].
    destruct (get_tts_script_path w) as [s|]; [|done].
    eexists. split; [reflexivity|].
    unfold notification_uses_name, engineer_name_of.
    destruct (negb _ && _); by apply choice_in.
  - destruct (is_voice_enabled_Ok w) as [v Hv]. congruence.
Qed.

(** Appending to what was read: a list grows by the event, anything else has
    no [append]. *)
Lemma read_log_append (f : file_state) (input_data : json) (l : list json) :
  f = Parsed (JArr l) ∨
    (l = [] ∧ (f = Missing ∨ (∃ err, f = Malformed err) ∨ (∃ err, f = Undecodable err))) →
  read_log f ≫= (λ log_data, py_append log_data input_data)
  = Ok (JArr (l ++ [input_data])).
Proof. by intros [->|[-> [->|[[err ->]|[err ->]]]]]. Qed.

(** X16: with a parsable event, a writable [logs/] directory and a log that is
    missing, rejected by the JSON parser or by the decoder, or a list, the
    hook writes back the list (empty in the first three cases) with the event
    appended at its end. *)
Theorem event_is_appended_to_log (lw : log_world) (input_data : json) (l : list json) :
  stdin (hook lw) = Some input_data →
  makedirs_error lw = None →
  log_save lw = Saved →
  log_file lw = Parsed (JArr l) ∨
    (l = [] ∧ (log_file lw = Missing ∨ (∃ err, log_file lw = Malformed err)
               ∨ (∃ err, log_file lw = Undecodable err))) →
  log_after (main Accepted lw) = Parsed (JArr (l ++ [input_data])) ∧
  exit_status (main Accepted lw) = 0.
Proof.
  intros Hstdin Hdir Hsave Hlog. unfold main.
  rewrite Hstdin, Hdir, (read_log_append _ input_data l Hlog), Hsave.
  destruct (notify lw); [|done].
  destruct (py_get input_data "message" JNull) as [message|]; [|done].
  by destruct (negb (eq_str message _)).
Qed.


(** X18: the plain hook speaks only when the command line is accepted and
    carries the [--notify] flag, only for an event object that does not carry
    the generic waiting message, and only after the log has been written
    with the event at its end; what it then invokes is what
    [announce_notification] invokes. *)
Theorem plain_hook_speaks_only_after_logging (cl : parse_result) (lw : log_world) :
  invocations (main cl lw) ≠ [] →
  cl = Accepted ∧
  notify lw = true ∧
  log_save lw = Saved ∧
  invocations (main cl lw) = announce_notification (hook lw) ∧
  ∃ (input_data : json) (l : list json),
    stdin (hook lw) = Some input_data ∧
    (∃ m : gmap string json, input_data = JObj m) ∧
    ¬ waiting_message input_data ∧
    log_after (main cl lw) = Parsed (JArr (l ++ [input_data])).
Proof.
  unfold main.
  destruct cl as [| |text]; [|done..].
  destruct (stdin (hook lw)) as [input_data|]; [|done].
  destruct (makedirs_error lw); [done|].
  destruct (read_log (log_file lw) ≫= _) as [log_data|] eqn:Hlog; [|done].
  destruct (log_save lw); [|done..].
  destruct (notify lw); [|done].
  destruct (py_get input_data "message" JNull) as [message|] eqn:Hmessage; [|done].
  destruct (eq_str_reflect message "Claude is waiting for your input") as [->|Hne];
    [done|].
  simpl. intros _. split_and!; [done..|].
  assert (∃ l, log_data = JArr (l ++ [input_data])) as [l ->].
  { destruct (read_log (log_file lw)) as [[| | | | |l|]|]; simpl in Hlog; try done.
    injection Hlog as <-. by exists l. }
  exists input_data, l. split_and!; [done| |  |done].
  - destruct input_data; try done. by eexists.
  - intros (m & -> & Hm). simpl in Hmessage. rewrite Hm in Hmessage.
    simpl in Hmessage. injection Hmessage as <-. done.
Qed.

End plain_hook.

(** ** More about the voice-control utility *)

Section voice_control_runs.
Import voice_control.

Lemma get_voice_status_eq (w : world) :
  get_voice_status w =
  match config_file w with
  | Parsed config =>
      match stored_flag config with
      | Ok is_enabled => (Ok (), add_lines w (status_report (truthy is_enabled)))
      | Raise e => (Raise e, w)
      end
  | Inaccessible err => (Raise (OSError err), w)
  | _ => (Ok (), add_lines w (load_diagnostic w))
  end.
Proof.
  unfold get_voice_status, try_with, stored_flag.
  rewrite M_bind_eq, load_factory_config_eq.
  destruct (config_file w) as [| err | err | config | err | err] eqn:Hfile;
    try done.
  rewrite M_bind_eq. unfold lift.
  destruct (py_get config "voice" (JObj ∅)) as [voice_config|e] eqn:Hvoice; simpl.
  - rewrite M_bind_eq.
    destruct (py_get voice_config "factoryNotifications" (JBool true))
      as [is_enabled|e] eqn:Hflag.
    + rewrite print_then.
      destruct (truthy is_enabled);
        rewrite M_bind_eq, print_then; unfold print;
        by rewrite !add_lines_add_lines.
    + apply py_get_Raise in Hflag. by destruct e.
  - apply py_get_Raise in Hvoice. by destruct e.
Qed.

Lemma load_diagnostic_nonempty (w : world) :
  match config_file w with
  | Parsed _ | Inaccessible _ => True
  | _ => load_diagnostic w ≠ []
  end.
Proof. unfold load_diagnostic. by destruct (config_file w). Qed.

Lemma py_setitem_Raise (config : json) (key : string) (value : json) (e : exn) :
  py_setitem config key value = Raise e → is_Exception e = true.
Proof. destruct config; simpl; by intros [= <-]. Qed.

Lemma set_voice_state_ending (mo : mode) (new_state : bool) (w : world) :
  mo ≠ Status → ending mo w (set_voice_state new_state w).
Proof.
  intros Hmode. rewrite set_voice_state_eq.
  pose proof (load_diagnostic_nonempty w) as Hlines.
  destruct (config_file w) as [| err | err | config | err | err] eqn:Hfile;
    try (by apply ending_exit); [|by apply ending_raised].
  destruct (py_setitem config "voice" _) as [config'|e] eqn:Hset.
  - destruct (config_save w) as [|err|err remains] eqn:Hsave.
    + apply ending_saved; [done|]. by destruct new_state.
    + by apply ending_exit.
    + by eapply ending_spoiled.
  - apply ending_raised. by eapply py_setitem_Raise.
Qed.

Lemma command_ending (mo : mode) (w : world) : ending mo w (command mo w).
Proof.
  pose proof (load_diagnostic_nonempty w) as Hlines.
  destruct mo; simpl.
  - by apply set_voice_state_ending.
  - by apply set_voice_state_ending.
  - rewrite toggle_voice_state_eq.
    destruct (config_file w) as [| err | err | config | err | err] eqn:Hfile;
      try (by apply ending_exit); [|by apply ending_raised].
    destruct (py_get config "voice" (JObj ∅) ≫= _) as [current_state|e] eqn:Hflag;
      [|apply ending_raised; by eapply read_flag_Raise].
    destruct (set_voice_state_ending Toggle (negb (truthy current_state)) w)
      as [lines ? ?|config' lines ? ?|lines ?|err remains lines ? ? ?|e ?];
      [done| | | | |by constructor].
    + done.
    + rewrite add_lines_add_lines. apply ending_saved; [done|]. by destruct lines.
    + by apply ending_exit.
    + by eapply ending_spoiled.
  - rewrite get_voice_status_eq.
    destruct (config_file w) as [| err | err | config | err | err] eqn:Hfile;
      try (by apply ending_reported); [|by apply ending_raised].
    destruct (stored_flag config) as [is_enabled|e] eqn:Hflag.
    + by apply ending_reported.
    + apply ending_raised. by eapply read_flag_Raise.
Qed.

(** What a run of the utility does to the world, in every mode. *)
Lemma run_outcome (a : args) (w w' : world) (code : Z) :
  run a w = (code, w') →
  (code = 0 ∨ code = 1) ∧
  (∃ lines, lines ≠ [] ∧ stdout w' = (stdout w ++ lines)%list) ∧
  (config_file w' = config_file w ∨
   (code = 0 ∧ mode_of a ≠ Status) ∨
   (code = 1 ∧ mode_of a ≠ Status ∧
    ∃ err remains, config_save w = WriteFailed err remains ∧ config_file w' = remains)).
Proof.
  rewrite run_eq.
  destruct (command_ending (mode_of a) w)
    as [lines ? ?|config' lines ? ?|lines ?|err remains lines ? ? ?|e He]; simpl.
  - intros [= <- <-]. split_and!; [by left | by exists lines | by left].
  - intros [= <- <-]. split_and!; [by left | by exists lines | right; by left].
  - intros [= <- <-]. split_and!; [by right | by exists lines | by left].
  - intros [= <- <-]. split_and!; [by right | by exists lines |].
    right; right. split_and!; [done..|]. by exists err, remains.
  - destruct e; try done; intros [= <- <-];
      (split_and!; [by right | eexists; split; [|reflexivity]; done | by left]).
Qed.

(** X19: a run in status mode leaves the configuration file exactly as it
    was, and so does a run that ends with a non-zero exit status, with one
    exception: when writing the file fails after it has been opened, the run
    ends with exit status 1 and the file holds what was written by then. *)
Theorem failed_run_and_the_config (a : args) (w w' : world) (code : Z) :
  run a w = (code, w') →
  code ≠ 0 ∨ mode_of a = Status →
  config_file w' = config_file w ∨
  (mode_of a ≠ Status ∧ code = 1 ∧
   ∃ (err : string) (remains : file_state),
     config_save w = WriteFailed err remains ∧ config_file w' = remains).
Proof.
  intros (_ & _ & [?|[[-> ?]|(-> & ? & ?)]])%run_outcome Hcase.
  - by left.
  - by destruct Hcase.
  - by right.
Qed.

(** X20: when the command line is rejected the process ends with exit status
    2 and nothing on standard output; a request for help ends with exit
    status 0 after the help text; with an accepted command line the exit
    status is 0 or 1 and the run prints at least one line, after what was on
    standard output before. *)
Theorem exit_status_and_output (cl : parse_result) (a : args) (w : world) :
  match cl with
  | Rejected => process cl a w = (2, w)
  | HelpShown text => process cl a w = (0, add_lines w text)
  | Accepted =>
      ((process cl a w).1 = 0 ∨ (process cl a w).1 = 1) ∧
      ∃ lines, lines ≠ [] ∧ stdout (process cl a w).2 = (stdout w ++ lines)%list
  end.
Proof.
  destruct cl as [| |text].
  - change (process Accepted a w) with (run a w).
    destruct (run a w) as [code w'] eqn:Hrun.
    apply run_outcome in Hrun as (? & ? & _). done.
  - done.
  - unfold process, main. by rewrite print_all_then.
Qed.

(** The hooks read the flag the way the utility does. *)
Lemma is_voice_enabled_stored (w : world) (config old : json) :
  config_file w = Parsed config →
  stored_flag config = Ok old →
  is_voice_enabled w = Ok old ∧ notification.is_voice_enabled w = Ok old.
Proof.
  unfold is_voice_enabled, notification.is_voice_enabled, stored_flag.
  intros -> Hflag. simpl. by rewrite Hflag.
Qed.

Lemma stored_flag_fresh (m : gmap string json) (b : bool) :
  stored_flag (JObj (<["voice" := JObj (voice_settings b)]> m)) = Ok (JBool b).
Proof.
  unfold stored_flag. simpl. rewrite lookup_insert_eq. simpl.
  by destruct b.
Qed.

Lemma stored_flag_dict (m voice : gmap string json) :
  default (JObj ∅) (m !! "voice") = JObj voice →
  stored_flag (JObj m) = Ok (default (JBool true) (voice !! "factoryNotifications")).
Proof. unfold stored_flag. simpl. by intros ->. Qed.

(** A run that saves: the file it found, the flag it found there, and the
    world it leaves. *)
Lemma run_success (a : args) (w w' : world) :
  mode_of a ≠ Status →
  run a w = (0, w') →
  ∃ (m : gmap string json) (old : json) (lines : list string),
    config_file w = Parsed (JObj m) ∧
    config_save w = Saved ∧
    is_voice_enabled w = Ok old ∧
    w' = add_lines
           (set_config_file w
              (Parsed (JObj (<["voice" := JObj (voice_settings (new_flag (mode_of a) old))]> m))))
           lines.
Proof.
  intros Hmode. rewrite run_eq.
  destruct (is_voice_enabled_Ok w) as [enabled Henabled].
  rewrite voice_checks_agree in Henabled.
  destruct (mode_of a) eqn:Hmo; simpl; [| | |done].
  - rewrite set_voice_state_eq.
    destruct (config_file w) as [| err | err | config | err | err]; try done.
    destruct config as [| | | | | |m]; try done. simpl.
    destruct (config_save w); [|done..]. intros [= <-]. by eexists m, enabled, _.
  - rewrite set_voice_state_eq.
    destruct (config_file w) as [| err | err | config | err | err]; try done.
    destruct config as [| | | | | |m]; try done. simpl.
    destruct (config_save w); [|done..]. intros [= <-]. by eexists m, enabled, _.
  - rewrite toggle_voice_state_eq.
    destruct (config_file w) as [| err | err | config | err | err] eqn:Hfile;
      try done.
    destruct (py_get config "voice" (JObj ∅) ≫= _) as [current_state|e] eqn:Hflag;
      [|apply read_flag_Raise in Hflag; by destruct e].
    destruct (is_voice_enabled_stored w config current_state Hfile Hflag) as [Hold _].
    rewrite set_voice_state_eq, Hfile.
    destruct config as [| | | | | |m]; try done. simpl.
    destruct (config_save w); [|done..]. simpl. intros [= <-].
    exists m, current_state. eexists.
    split_and!; [done..|]. by rewrite add_lines_add_lines.
Qed.

(** X21: after an enable, disable or toggle run that ends with exit status 0
    both hooks read the state the mode asked for: enabled, disabled, or the
    opposite of what they read before. *)
Theorem hooks_read_the_saved_state (a : args) (w w' : world) :
  mode_of a ≠ Status →
  run a w = (0, w') →
  ∃ old,
    is_voice_enabled w = Ok old ∧
    is_voice_enabled w' = Ok (JBool (new_flag (mode_of a) old)) ∧
    notification.is_voice_enabled w' = Ok (JBool (new_flag (mode_of a) old)).
Proof.
  intros Hmode (m & old & lines & Hfile & Hsave & Hold & ->)%run_success; [|done].
  exists old. split; [done|].
  eapply is_voice_enabled_stored; [reflexivity | apply stored_flag_fresh].
Qed.

(** A toggle on a readable configuration that can be written. *)
Lemma toggle_run_ok (a : args) (w : world) (m : gmap string json) (current : json) :
  mode_of a = Toggle →
  config_file w = Parsed (JObj m) →
  config_save w = Saved →
  stored_flag (JObj m) = Ok current →
  run a w =
    (0, add_lines
          (set_config_file w
             (Parsed (JObj (<["voice" := JObj (voice_settings (negb (truthy current)))]> m))))
          (state_feedback (negb (truthy current))
           ++ [ if negb (truthy current) then "💡 Use /voice-toggle again to disable"
                else "💡 Use /voice-toggle again to enable"; "" ])).
Proof.
  intros Hmode Hfile Hsave Hflag.
  rewrite run_eq, Hmode. unfold command.
  rewrite toggle_voice_state_eq, Hfile.
  change (py_get _ "voice" (JObj ∅) ≫= _) with (stored_flag (JObj m)).
  rewrite Hflag, set_voice_state_eq, Hfile.
  cbn [py_setitem]. rewrite Hsave. cbn [finish].
  by rewrite add_lines_add_lines.
Qed.

(** X23: a second toggle after a successful one succeeds too, and the file
    then holds the voice object of the state read before the first toggle;
    when the file started out with such a voice object, two toggles bring it
    back to exactly what it was. *)
Theorem toggle_twice_restores (a : args) (w w1 : world) :
  mode_of a = Toggle →
  run a w = (0, w1) →
  ∃ (w2 : world) (m : gmap string json) (old : json),
    run a w1 = (0, w2) ∧
    config_file w = Parsed (JObj m) ∧
    is_voice_enabled w = Ok old ∧
    config_file w2 =
      Parsed (JObj (<["voice" := JObj (voice_settings (truthy old))]> m)) ∧
    (∀ b, m !! "voice" = Some (JObj (voice_settings b)) → config_file w2 = config_file w).
Proof.
  intros Hmode Hrun.
  apply run_success in Hrun as (m & old & lines & Hfile & Hsave & Hold & ->);
    [|by rewrite Hmode].
  rewrite Hmode. cbn [new_flag].
  eexists _, m, old.
  split; [|split; [done|split; [done|]]].
  - eapply toggle_run_ok; [done | reflexivity | done | apply stored_flag_fresh].
  - cbn [config_file add_lines set_config_file truthy].
    rewrite negb_involutive, insert_insert_eq. split; [done|].
    intros b Hb. rewrite Hfile. do 2 f_equal.
    assert (old = JBool b) as ->.
    { destruct (is_voice_enabled_stored w (JObj m) (JBool b) Hfile) as [Hold' _].
      - unfold stored_flag. simpl. rewrite Hb. simpl. by destruct b.
      - congruence. }
    by apply insert_id.
Qed.


(** X25: a configuration file that parses to something other than an object
    makes every mode report an unexpected error and exit with status 1,
    leaving the file as it was. *)
Theorem non_object_config_exits_1 (a : args) (w : world) (config : json) :
  config_file w = Parsed config →
  (∀ m, config ≠ JObj m) →
  ∃ msg,
    run a w =
      (1, add_lines w [ "❌ Unexpected error: " ++ msg;
                        "🔧 Please check your factory configuration" ]).
Proof.
  intros Hfile Hconfig. rewrite run_eq.
  assert (∃ msg, py_setitem config "voice" (JObj (voice_settings true)) = Raise (TypeError msg)
                 ∧ py_setitem config "voice" (JObj (voice_settings false)) = Raise (TypeError msg)
                 ∧ stored_flag config = Raise (AttributeError ("'" ++ type_name config
                                                 ++ "' object has no attribute 'get'")))
    as (msg & Hset1 & Hset2 & Hflag).
  { destruct config as [| | | | | |m]; try (by eexists); by destruct (Hconfig m). }
  destruct (mode_of a); simpl.
  - exists msg. rewrite set_voice_state_eq, Hfile. by rewrite Hset1.
  - exists msg. rewrite set_voice_state_eq, Hfile. by rewrite Hset2.
  - eexists. rewrite toggle_voice_state_eq, Hfile.
    change (py_get _ "voice" (JObj ∅) ≫= _) with (stored_flag config).
    by rewrite Hflag.
  - eexists. rewrite get_voice_status_eq, Hfile. by rewrite Hflag.
Qed.

(** X26: for a configuration object whose [voice] entry is absent or a
    dictionary, the status mode reports ENABLED exactly when the flag the
    hooks read is truthy (a missing flag counts as enabled), prints nothing
    else, and exits with status 0. *)
Theorem status_reports_what_hooks_read (a : args) (w : world)
    (m voice : gmap string json) :
  mode_of a = Status →
  config_file w = Parsed (JObj m) →
  default (JObj ∅) (m !! "voice") = JObj voice →
  ∃ flag,
    is_voice_enabled w = Ok flag ∧
    flag = default (JBool true) (voice !! "factoryNotifications") ∧
    run a w = (0, add_lines w (status_report (truthy flag))).
Proof.
  intros Hmode Hfile Hvoice.
  pose proof (stored_flag_dict m voice Hvoice) as Hflag.
  destruct (is_voice_enabled_stored w _ _ Hfile Hflag) as [Hhook _].
  eexists. split_and!; [done..|].
  rewrite run_eq, Hmode. simpl. rewrite get_voice_status_eq, Hfile.
  by rewrite Hflag.
Qed.

End voice_control_runs.

Section silenced_hooks.
Context `{StrOps}.

(** X22: once a disable run, or a toggle run that found voice enabled, has
    ended with exit status 0, neither hook invokes a backend, whatever the
    event. *)
Theorem disabled_voice_silences_hooks (a : voice_control.args) (w w' : world) (old : json) :
  mode_of a ≠ Status →
  voice_control.run a w = (0, w') →
  is_voice_enabled w = Ok old →
  new_flag (mode_of a) old = false →
  announce_factory_progress w' = [] ∧ notification.announce_notification w' = [].
Proof.
  intros Hmode (m & old' & lines & Hfile & Hsave & Hold & ->)%run_success Hold' Hflag;
    [|done].
  assert (old' = old) as -> by congruence.
  destruct (is_voice_enabled_stored
              (voice_control.add_lines
                 (voice_control.set_config_file w
                    (Parsed (JObj (<["voice" :=
                       JObj (voice_control.voice_settings (new_flag (mode_of a) old))]> m))))
                 lines) _ _ eq_refl (stored_flag_fresh m _)) as [Hfactory Hplain].
  unfold announce_factory_progress, notification.announce_notification.
  rewrite Hfactory, Hplain, Hflag. done.
Qed.

End silenced_hooks.

(** ** The OpenAI backend script *)

Section openai_backend.
Import openai_tts.

(** X27: the backend exits with status 1, without a request to the speech
    API, exactly when the API key is missing or empty, a package cannot be
    imported, or the client cannot be built; otherwise it makes one request
    and exits with status 0, also when synthesis or playback fails. *)
Theorem openai_exit_status (e : tts_env) :
  (status (main e) = 1 ∧ requests (main e) = [] ↔
     api_key e = None ∨ api_key e = Some "" ∨ packages_missing e = true ∨
     is_Some (client_error e)) ∧
  (status (main e) = 0 ∧ (∃ text, requests (main e) = [text]) ∨
   status (main e) = 1 ∧ requests (main e) = []).
Proof.
  unfold main.
  destruct (api_key e) as [key|]; simpl.
  2: { split; [split; [by left | done] | by right]. }
  destruct (String.eqb_spec key "") as [->|Hkey]; simpl.
  { split; [split; [by right; left | done] | by right]. }
  destruct (packages_missing e); simpl.
  { split; [split; [by right; right; left | done] | by right]. }
  destruct (client_error e) as [err|]; simpl.
  { split; [split; [by right; right; right | done] | by right]. }
  destruct (speak e _); simpl;
    (split; [split; [by intros [[=] _]
                    |intros [[=]|[[=]|[[=]|[? [=]]]]]; congruence]
            |left; split; [done | by eexists]]).
Qed.

(** X28: called the way the hooks call it, with the message as its only
    argument, and with key, packages and client in order, the backend asks
    the speech API for exactly that message and reports the outcome of the
    playback in its last line. *)
Theorem openai_speaks_the_message (e : tts_env) (script key message : string) :
  api_key e = Some key → key ≠ "" →
  packages_missing e = false →
  client_error e = None →
  argv e = [script; message] →
  requests (main e) = [message] ∧
  status (main e) = 0 ∧
  last (printed (main e)) =
    Some (match speak e message with
          | None => "✅ Playback complete!"
          | Some err => "❌ Error: " ++ err
          end).
Proof.
  intros Hkey Hne Hpackages Hclient Hargv. unfold main.
  rewrite Hkey, Hpackages, Hclient, Hargv. simpl.
  apply String.eqb_neq in Hne as ->. simpl.
  by destruct (speak e message).
Qed.

End openai_backend.


(** ** The properties on sample inputs *)

(** The sample texts are ASCII apart from the emoji, so that the ASCII
    methods are the methods of Python on them. *)
#[local] Existing Instance ascii_ops.

(** C1: on a machine with no API key where only the ElevenLabs script exists
    the cascade lists that script, yet the announcement invokes nothing: the
    key-based selection that precedes the cascade finds no script and the
    function returns.  With the local script added to the same machine the
    cascade does start with ElevenLabs, key or no key. *)
Theorem cascade_blocked_by_key_based_selection :
  environ (hook_world only_elevenlabs) !! "ELEVENLABS_API_KEY" = None ∧
  environ (hook_world only_elevenlabs) !! "OPENAI_API_KEY" = None ∧
  is_voice_enabled (hook_world only_elevenlabs) = Ok (JBool true) ∧
  should_announce_factory_progress progress_event = Ok (true, Some 3, Some false) ∧
  fallback_scripts (hook_world only_elevenlabs) = [elevenlabs_tts] ∧
  get_tts_script_path (hook_world only_elevenlabs) = None ∧
  announce_factory_progress (hook_world only_elevenlabs) = [] ∧
  announce_factory_progress (hook_world elevenlabs_and_pyttsx3) =
    [(elevenlabs_tts, "Tech stack analysis in progress - optimizing architecture")].
Proof. split_and!; by vm_compute. Qed.

Lemma sample_event_todo_write (todos : list json) : todo_write (sample_event todos) todos.
Proof. by eexists _, _. Qed.

Lemma sample_todo_item (content status : string) :
  todo_item (sample_todo content status) content (JStr status).
Proof. by eexists. Qed.

Example classify_upper_case :
  detect_factory_phase "PHASE 3: context assembly" = Some 3 ∧
  detect_factory_phase "phase 3: context assembly" = Some 3.
Proof. by vm_compute. Qed.

Example classify_unrelated : detect_factory_phase "unrelated task" = None.
Proof. by vm_compute. Qed.

Example phase_markers_listed :
  phase_markers =
    [ (1, "🏁 phase 1"); (2, "🤔 phase 2"); (3, "🧠 phase 3");
      (4, "📝 phase 4"); (5, "🎉 phase 5") ].
Proof. reflexivity. Qed.

Example covered_triggers_listed :
  covered_triggers =
    [ "🏁 phase 1"; "🤔 phase 2"; "project discovery"; "🧠 phase 3";
      "automated research"; "📝 phase 4"; "generate project files";
      "🎉 phase 5"; "voice celebration" ].
Proof. by vm_compute. Qed.

(** C3: a text with the bare words [phase 3] and no trigger of phase 1 or 2
    is not classified at all. *)
Lemma bare_phase_words_not_classified :
  str_in "phase 3" (str_lower "Phase 3: wire the modules") = true ∧
  earlier_trigger 3 (str_lower "Phase 3: wire the modules") = false ∧
  detect_factory_phase "Phase 3: wire the modules" = None.
Proof. by vm_compute. Qed.

Lemma marker_classifies_witness :
  (3, "🧠 phase 3") ∈ phase_markers ∧
  str_in "🧠 phase 3" (str_lower "🧠 Phase 3: wire the modules") = true ∧
  earlier_trigger 3 (str_lower "🧠 Phase 3: wire the modules") = false ∧
  detect_factory_phase "🧠 Phase 3: wire the modules" = Some 3.
Proof.
  assert ((3, "🧠 phase 3") ∈ phase_markers) as Hmarker.
  { rewrite phase_markers_listed. do 2 right. left. }
  split_and!; [done | by vm_compute | by vm_compute |].
  apply (marker_classifies "🧠 Phase 3: wire the modules" 3 "🧠 phase 3");
    [done | by vm_compute | by vm_compute].
Defined.

(** C6: [system verification] is a trigger of phase 1 and contains no keyword
    of the broader set. *)
Lemma classified_without_keyword :
  detect_factory_phase "System verification" = Some 1 ∧
  is_factory_todo (str_lower "System verification") = false.
Proof. by vm_compute. Qed.

Lemma covered_trigger_witness :
  "automated research" ∈ covered_triggers ∧
  str_in "automated research" (str_lower "Automated research on the stack") = true ∧
  is_Some (detect_factory_phase "Automated research on the stack") ∧
  is_factory_todo (str_lower "Automated research on the stack") = true.
Proof.
  assert ("automated research" ∈ covered_triggers) as Hcovered.
  { rewrite covered_triggers_listed. do 4 right. left. }
  split_and!; [done | by vm_compute | ..];
    apply (covered_trigger_passes_keyword_check
             "Automated research on the stack" "automated research");
    (done || by vm_compute).
Defined.

Lemma single_item_gating_witness :
  ∃ d : decision,
    should_announce_factory_progress progress_event = Ok d ∧
    (d.1.1 = true ↔
       (3 = 5 ∧ JStr "in_progress" = JStr "completed") ∨
       (1 ≤ 3 ≤ 4 ∧ JStr "in_progress" = JStr "in_progress")) ∧
    (d.1.1 = true → d = (true, Some 3, Some (3 =? 5))) ∧
    (d.1.1 = false → d = (false, None, None)).
Proof.
  apply (single_item_gating progress_event
           (sample_todo "🧠 Phase 3: Context Assembly" "in_progress")
           "🧠 Phase 3: Context Assembly" (JStr "in_progress") 3).
  - apply sample_event_todo_write.
  - apply sample_todo_item.
  - by vm_compute.
  - by vm_compute.
Defined.

(** C5: the first factory-relevant item with a detected phase is a completed
    phase 3, which is not announced, and the dispatcher still announces the
    phase-4 item that follows it. *)
Lemma later_item_is_announced :
  is_factory_todo (str_lower "🧠 Phase 3: Context Assembly") = true ∧
  detect_factory_phase (str_lower "🧠 Phase 3: Context Assembly") = Some 3 ∧
  todo_body (sample_todo "🧠 Phase 3: Context Assembly" "completed") = Ok None ∧
  should_announce_factory_progress handover_event = Ok (true, Some 4, Some false).
Proof. by vm_compute. Qed.

Lemma first_announced_item_wins_witness :
  todo_write handover_event
    [ sample_todo "🧠 Phase 3: Context Assembly" "completed";
      sample_todo "📝 Phase 4: Generate project files" "in_progress" ] ∧
  should_announce_factory_progress handover_event = Ok (true, Some 4, Some false).
Proof.
  split; [apply sample_event_todo_write|].
  apply (proj1 (first_announced_item_wins handover_event _
                  (sample_event_todo_write _))
           [sample_todo "🧠 Phase 3: Context Assembly" "completed"]
           (sample_todo "📝 Phase 4: Generate project files" "in_progress")
           [] (true, Some 4, Some false)).
  - reflexivity.
  - constructor; [by vm_compute | constructor].
  - by vm_compute.
Defined.

Lemma sample_rng_ok : rng_ok sample_rng.
Proof. intros n Hn. exact Hn. Qed.

Lemma message_from_documented_pool_witness :
  rng_ok sample_rng ∧
  (∃ message : string,
     get_factory_message sample_rng 5 (Some "Ada") true = Some message ∧
     message ∈ personal_completion_messages "Ada") ∧
  (∃ message : string,
     get_factory_message sample_rng 5 (Some "") true = Some message ∧
     message ∈ completion_messages) ∧
  (∃ (message : string) (pool : pools),
     get_factory_message sample_rng 3 (Some "Ada") false = Some message ∧
     (3, pool) ∈ phase_messages "Ada" ∧ message ∈ personal pool) ∧
  get_factory_message sample_rng 6 (Some "Ada") true = None.
Proof.
  assert (PrimFloat.ltb (random sample_rng) 0.7%float = true) as Hdraw
    by reflexivity.
  split; [apply sample_rng_ok|]. split_and!.
  - destruct (message_from_documented_pool sample_rng 5 (Some "Ada") true sample_rng_ok)
      as (Hin & _ & _).
    destruct Hin as (message & Hmessage & Hpool); [lia|].
    exists message. split; [done|].
    destruct Hpool as [(name & [= <-] & _ & _ & Hpool)|[[[=]|[[=]|Hno]] _]].
    + exact Hpool.
    + rewrite Hdraw in Hno. discriminate.
  - destruct (message_from_documented_pool sample_rng 5 (Some "") true sample_rng_ok)
      as (Hin & _ & _).
    destruct Hin as (message & Hmessage & Hpool); [lia|].
    exists message. split; [done|].
    destruct Hpool as [(name & [= <-] & Hname & _)|[_ Hpool]].
    + by destruct Hname.
    + exact Hpool.
  - destruct (message_from_documented_pool sample_rng 3 (Some "Ada") false sample_rng_ok)
      as (Hin & _ & _).
    destruct Hin as (message & Hmessage & Hpool); [lia|].
    exists message.
    destruct Hpool as [(name & [= <-] & _ & _ & pool & Hpool)|[[[=]|[[=]|Hno]] _]].
    + by exists pool.
    + rewrite Hdraw in Hno. discriminate.
  - destruct (message_from_documented_pool sample_rng 6 (Some "Ada") true sample_rng_ok)
      as (_ & _ & Hout).
    apply Hout. lia.
Defined.

Example personalized_completion :
  get_factory_message sample_rng 5 (Some "Ada") true =
    Some "Amazing work, Ada! Your EchoContext Factory has created the perfect setup!" ∧
  get_factory_message sample_rng 5 (Some "") true =
    Some "EchoContext Factory operation complete! Your project is ready for acceleration!" ∧
  get_factory_message sample_rng 5 (Some "Ada") false =
    Some "Ada, final touches in progress - your project setup is almost perfect!".
Proof. by vm_compute. Qed.

(** C2: in status mode a missing configuration file ends the process with
    exit status 0. *)
Lemma status_mode_exits_zero :
  unusable (config_file (control_world Missing)) ∧
  mode_of status_args = Status ∧
  voice_control.run status_args (control_world Missing) =
    (0, voice_control.add_lines (control_world Missing)
          [ "❌ Factory configuration not found";
            "   Expected: /home/dev/.claude/config/factory.json";
            "💡 Please run /start-project first to initialize the factory" ]).
Proof. split_and!; [exact I | done | by vm_compute]. Qed.

Lemma unusable_config_exit_status_witness :
  (unusable (config_file (control_world (Malformed "Expecting value"))) ∧
   diagnostic (control_world (Malformed "Expecting value")) ≠ [] ∧
   voice_control.run toggle_args (control_world (Malformed "Expecting value")) =
     (1, voice_control.add_lines (control_world (Malformed "Expecting value"))
           (diagnostic (control_world (Malformed "Expecting value"))))) ∧
  (unusable (config_file (control_world (Inaccessible "[Errno 13] Permission denied"))) ∧
   diagnostic (control_world (Inaccessible "[Errno 13] Permission denied")) ≠ [] ∧
   voice_control.run status_args (control_world (Inaccessible "[Errno 13] Permission denied")) =
     (1, voice_control.add_lines (control_world (Inaccessible "[Errno 13] Permission denied"))
           (diagnostic (control_world (Inaccessible "[Errno 13] Permission denied"))))).
Proof.
  split; (split; [exact I|]).
  - exact (unusable_config_exit_status toggle_args
             (control_world (Malformed "Expecting value")) I).
  - exact (unusable_config_exit_status status_args
             (control_world (Inaccessible "[Errno 13] Permission denied")) I).
Defined.

(** When the directory of the configuration may not be searched, the status
    mode ends like the others. *)
Example status_mode_unexpected_error :
  voice_control.run status_args (control_world (Inaccessible "[Errno 13] Permission denied")) =
    (1, voice_control.add_lines (control_world (Inaccessible "[Errno 13] Permission denied"))
          [ "❌ Unexpected error: [Errno 13] Permission denied";
            "🔧 Please check your factory configuration" ]) ∧
  is_voice_enabled (control_world (Inaccessible "[Errno 13] Permission denied"))
    = Ok (JBool true) ∧
  notification.is_voice_enabled (control_world (Inaccessible "[Errno 13] Permission denied"))
    = Ok (JBool true).
Proof. by vm_compute. Qed.

Lemma toggle_sample_run :
  voice_control.run toggle_args (control_world (Parsed (JObj sample_config))) =
    (0, (voice_control.run toggle_args (control_world (Parsed (JObj sample_config)))).2).
Proof. by vm_compute. Qed.

Lemma lockstep_after_success_witness :
  mode_of toggle_args ≠ Status ∧
  ∃ (m voice : gmap string json) (b : bool),
    config_file (voice_control.run toggle_args
                   (control_world (Parsed (JObj sample_config)))).2 = Parsed (JObj m) ∧
    m !! "voice" = Some (JObj voice) ∧
    lockstep voice b.
Proof.
  split; [done|].
  apply (lockstep_after_success toggle_args
           (control_world (Parsed (JObj sample_config)))); [done|].
  apply toggle_sample_run.
Defined.

Lemma other_keys_preserved_witness :
  mode_of toggle_args ≠ Status ∧
  ∃ (m m' : gmap string json) (b : bool),
    config_file (control_world (Parsed (JObj sample_config))) = Parsed (JObj m) ∧
    config_file (voice_control.run toggle_args
                   (control_world (Parsed (JObj sample_config)))).2 = Parsed (JObj m') ∧
    m' !! "voice" = Some (JObj (voice_control.voice_settings b)) ∧
    (∀ key : string, key ≠ "voice" → m' !! key = m !! key) ∧
    delete "voice" m' = delete "voice" m.
Proof.
  split; [done|].
  apply (other_keys_preserved toggle_args
           (control_world (Parsed (JObj sample_config)))); [done|].
  apply toggle_sample_run.
Defined.

(** The round trip of the specification: after [enable] the status is
    enabled; after [disable] and then [toggle] it is enabled again. *)
Example toggle_turns_voice_on :
  config_file (voice_control.run toggle_args
                 (control_world (Parsed (JObj sample_config)))).2 =
    Parsed (JObj (<["voice" := JObj (voice_control.voice_settings true)]> sample_config)) ∧
  is_voice_enabled (voice_control.run toggle_args
                      (control_world (Parsed (JObj sample_config)))).2 = Ok (JBool true).
Proof. by vm_compute. Qed.

(** The check hands back the stored value as it is: a flag that is [null]
    comes back as [None], not as [False]. *)
Example null_flag_returned_as_is :
  is_voice_enabled
    (control_world (Parsed (JObj {[ "voice" := JObj {[ "factoryNotifications" := JNull ]} ]})))
  = Ok JNull.
Proof. by vm_compute. Qed.

(** ** The further properties on sample inputs *)

Lemma decision_is_well_formed_witness :
  should_announce_factory_progress progress_event = Ok (true, Some 3, Some false) ∧
  ((true, Some 3, Some false) = ((false, None, None) : decision) ∨
   ∃ p, 1 ≤ p ≤ 5 ∧ ((true, Some 3, Some false) : decision) = (true, Some p, Some (p =? 5))).
Proof.
  assert (should_announce_factory_progress progress_event = Ok (true, Some 3, Some false))
    as Hdecision by by vm_compute.
  split; [done|]. apply (decision_is_well_formed progress_event _ Hdecision).
Defined.

Lemma no_todo_list_no_announcement_witness :
  should_announce_factory_progress (JObj {[ "tool_name" := JStr "TodoWrite" ]})
  = Ok (false, None, None).
Proof.
  apply no_todo_list_no_announcement. right. exists ∅. by vm_compute.
Defined.

Lemma irrelevant_item_is_skipped_witness :
  todo_body (JObj {[ "status" := JStr "in_progress" ]}) = Ok None.
Proof. apply irrelevant_item_is_skipped. left. by vm_compute. Defined.

Lemma unreadable_item_silences_hook_witness :
  unreadable_item (JStr "write tests") ∧
  (∃ msg, should_announce_factory_progress broken_event = Raise (AttributeError msg)) ∧
  announce_factory_progress broken_world = [].
Proof.
  split; [exact I|].
  apply (unreadable_item_silences_hook broken_world broken_event []
           (JStr "write tests")
           [sample_todo "🧠 Phase 3: Context Assembly" "in_progress"]).
  - reflexivity.
  - apply sample_event_todo_write.
  - constructor.
  - exact I.
Defined.

Lemma generated_message_not_empty_witness :
  get_factory_message sample_rng 2 None false
    = Some "Interview engine online - ready for intelligence gathering" ∧
  "Interview engine online - ready for intelligence gathering" ≠ "".
Proof.
  assert (get_factory_message sample_rng 2 None false
          = Some "Interview engine online - ready for intelligence gathering")
    as Hmessage by by vm_compute.
  split; [done|].
  apply (generated_message_not_empty sample_rng 2 None false _ sample_rng_ok Hmessage).
Defined.

Lemma personalized_message_mentions_name_witness :
  use_name sample_rng (Some "Ada") = true ∧
  get_factory_message sample_rng 1 (Some "Ada") false
    = Some "Hey Ada, EchoContext Factory is spinning up for maximum speed!" ∧
  str_in "Ada" "Hey Ada, EchoContext Factory is spinning up for maximum speed!" = true.
Proof.
  assert (use_name sample_rng (Some "Ada") = true) as Huse by by vm_compute.
  assert (get_factory_message sample_rng 1 (Some "Ada") false
          = Some "Hey Ada, EchoContext Factory is spinning up for maximum speed!")
    as Hmessage by by vm_compute.
  split_and!; [done..|].
  apply (personalized_message_mentions_name sample_rng 1 "Ada" false _
           sample_rng_ok Huse Hmessage).
Defined.

Lemma selected_script_is_usable_witness :
  get_tts_script_path keyed_world = Some elevenlabs_tts ∧
  tts_script_exists keyed_world elevenlabs_tts = true ∧
  elevenlabs_tts ∈ fallback_scripts keyed_world ∧
  notification.get_tts_script_path keyed_world = Some elevenlabs_tts.
Proof.
  assert (get_tts_script_path keyed_world = Some elevenlabs_tts) as Hsel by by vm_compute.
  destruct (selected_script_is_usable keyed_world elevenlabs_tts Hsel)
    as (? & ? & _ & _ & ?).
  done.
Defined.

Lemma cascade_world_ready (outcome : tts_script → string → run_result) :
  ready (cascade_world outcome) 3 false.
Proof.
  split_and!.
  - exists (JBool true). by vm_compute.
  - exists progress_event. by vm_compute.
  - exists pyttsx3_tts. by vm_compute.
Qed.

Lemma cascade_world_message (outcome : tts_script → string → run_result) :
  get_factory_message (random_source (cascade_world outcome)) 3
    (Some (engineer_name_of (cascade_world outcome))) false
  = Some "Tech stack analysis in progress - optimizing architecture".
Proof. by vm_compute. Qed.

Lemma only_the_last_invocation_can_succeed_witness :
  announce_factory_progress (cascade_world cloud_fails) =
    [ (elevenlabs_tts, "Tech stack analysis in progress - optimizing architecture");
      (pyttsx3_tts, "Tech stack analysis in progress - optimizing architecture") ] ∧
  caught_failure
    (subprocess_run (cascade_world cloud_fails) elevenlabs_tts
       "Tech stack analysis in progress - optimizing architecture").
Proof.
  assert (announce_factory_progress (cascade_world cloud_fails) =
            ([] ++ (elevenlabs_tts, "Tech stack analysis in progress - optimizing architecture")
                :: [(pyttsx3_tts, "Tech stack analysis in progress - optimizing architecture")])%list)
    as Hrun by by vm_compute.
  split; [exact Hrun|].
  by apply (only_the_last_invocation_can_succeed _ _ _ _ Hrun).
Defined.

Lemma cascade_tries_every_script_witness :
  announce_factory_progress (cascade_world all_fail) =
    [ (elevenlabs_tts, "Tech stack analysis in progress - optimizing architecture");
      (pyttsx3_tts, "Tech stack analysis in progress - optimizing architecture") ].
Proof.
  apply (cascade_tries_every_script (cascade_world all_fail) 3 false
           "Tech stack analysis in progress - optimizing architecture"
           sample_rng_ok (cascade_world_ready all_fail) (cascade_world_message all_fail)).
  change (fallback_scripts (cascade_world all_fail)) with [elevenlabs_tts; pyttsx3_tts].
  repeat constructor; done.
Defined.

Lemma cascade_stops_at_first_success_witness :
  announce_factory_progress (cascade_world (λ _ _, Exited 0)) =
    [ (elevenlabs_tts, "Tech stack analysis in progress - optimizing architecture") ].
Proof.
  apply (cascade_stops_at_first_success (cascade_world (λ _ _, Exited 0)) 3 false
           "Tech stack analysis in progress - optimizing architecture"
           [] elevenlabs_tts [pyttsx3_tts]
           sample_rng_ok (cascade_world_ready _) (cascade_world_message _)).
  - reflexivity.
  - constructor.
  - reflexivity.
Defined.

Lemma launch_failure_ends_cascade_witness :
  announce_factory_progress (cascade_world no_launcher) =
    [ (elevenlabs_tts, "Tech stack analysis in progress - optimizing architecture") ].
Proof.
  apply (launch_failure_ends_cascade (cascade_world no_launcher) 3 false
           "Tech stack analysis in progress - optimizing architecture"
           [] elevenlabs_tts [pyttsx3_tts]
           sample_rng_ok (cascade_world_ready _) (cascade_world_message _)).
  - reflexivity.
  - constructor.
  - reflexivity.
Defined.

Lemma invocations_follow_cascade_witness :
  (announce_factory_progress silent_world).*1 = [elevenlabs_tts; openai_tts; pyttsx3_tts] ∧
  ∃ message k,
    announce_factory_progress silent_world =
      (λ s, (s, message)) <$>
        take k (filter (λ s, tts_script_exists silent_world s = true)
                       [elevenlabs_tts; openai_tts; pyttsx3_tts]).
Proof.
  split; [by vm_compute|].
  exact (proj1 (invocations_follow_cascade silent_world)).
Defined.

Lemma plain_hook_invokes_selected_script_witness :
  rng_ok (random_source keyed_world) ∧
  ∃ message,
    notification.announce_notification keyed_world = [(elevenlabs_tts, message)] ∧
    message ∈ notification.personal_messages "Ada".
Proof.
  split; [apply sample_rng_ok|].
  destruct (plain_hook_invokes_selected_script keyed_world sample_rng_ok)
    as (_ & enabled & Henabled & Hrun).
  assert (enabled = JBool true) as -> by (vm_compute in Henabled; congruence).
  exact Hrun.
Defined.

Example plain_hook_message :
  notification.announce_notification keyed_world =
    [(elevenlabs_tts, "Ada, your AI amplifier needs guidance")].
Proof. by vm_compute. Qed.

Lemma event_is_appended_to_log_witness :
  notification.log_after (notification.main Accepted sample_log_world) =
    Parsed (JArr [JStr "earlier"; progress_event]) ∧
  notification.exit_status (notification.main Accepted sample_log_world) = 0.
Proof.
  apply (event_is_appended_to_log sample_log_world progress_event [JStr "earlier"]);
    (reflexivity || by left).
Defined.


Lemma sample_log_world_speaks :
  notification.invocations (notification.main Accepted sample_log_world) ≠ [].
Proof. by vm_compute. Qed.

Lemma plain_hook_speaks_only_after_logging_witness :
  Accepted = Accepted ∧
  notification.notify sample_log_world = true ∧
  notification.log_save sample_log_world = Saved ∧
  notification.invocations (notification.main Accepted sample_log_world)
    = notification.announce_notification (notification.hook sample_log_world) ∧
  ∃ (input_data : json) (l : list json),
    stdin (notification.hook sample_log_world) = Some input_data ∧
    (∃ m : gmap string json, input_data = JObj m) ∧
    ¬ waiting_message input_data ∧
    notification.log_after (notification.main Accepted sample_log_world)
      = Parsed (JArr (l ++ [input_data])).
Proof.
  exact (plain_hook_speaks_only_after_logging Accepted sample_log_world
           sample_log_world_speaks).
Defined.

(** A command line that is not accepted: nothing is logged and nothing is
    said; a rejected one ends with status 2. *)
Example plain_hook_command_line :
  notification.main Rejected sample_log_world =
    {| notification.exit_status := 2;
       notification.log_after := Parsed (JArr [JStr "earlier"]);
       notification.invocations := [] |} ∧
  notification.main (HelpShown ["usage: notification.py [-h] [--notify]"]) sample_log_world =
    {| notification.exit_status := 0;
       notification.log_after := Parsed (JArr [JStr "earlier"]);
       notification.invocations := [] |}.
Proof. by vm_compute. Qed.

Lemma failed_run_and_the_config_witness :
  config_file (voice_control.run status_args (control_world (Parsed (JObj sample_config)))).2
    = Parsed (JObj sample_config) ∧
  config_file (voice_control.run toggle_args readonly_world).2
    = Parsed (JObj sample_config).
Proof.
  split.
  - destruct (failed_run_and_the_config status_args
                (control_world (Parsed (JObj sample_config))) _ _
                (surjective_pairing _)) as [Hfile|(Hmode & _)].
    + by right.
    + exact Hfile.
    + by destruct Hmode.
  - destruct (failed_run_and_the_config toggle_args readonly_world _ _
                (surjective_pairing _)) as [Hfile|(_ & _ & err & remains & [=] & _)].
    + left. by vm_compute.
    + exact Hfile.
Defined.

Lemma exit_status_and_output_witness :
  voice_control.process Rejected toggle_args (control_world Missing)
    = (2, control_world Missing) ∧
  voice_control.process (HelpShown ["usage: voice_control.py [-h]"]) toggle_args
      (control_world Missing)
    = (0, voice_control.add_lines (control_world Missing) ["usage: voice_control.py [-h]"]) ∧
  ((voice_control.process Accepted toggle_args (control_world Missing)).1 = 0 ∨
   (voice_control.process Accepted toggle_args (control_world Missing)).1 = 1) ∧
  ∃ lines,
    lines ≠ [] ∧
    stdout (voice_control.process Accepted toggle_args (control_world Missing)).2
      = (stdout (control_world Missing) ++ lines)%list.
Proof.
  split; [|split].
  - exact (exit_status_and_output Rejected toggle_args (control_world Missing)).
  - exact (exit_status_and_output (HelpShown ["usage: voice_control.py [-h]"])
             toggle_args (control_world Missing)).
  - exact (exit_status_and_output Accepted toggle_args (control_world Missing)).
Defined.

Lemma hooks_read_the_saved_state_witness :
  ∃ old,
    is_voice_enabled (control_world (Parsed (JObj sample_config))) = Ok old ∧
    is_voice_enabled
      (voice_control.run toggle_args (control_world (Parsed (JObj sample_config)))).2
      = Ok (JBool (new_flag (mode_of toggle_args) old)) ∧
    notification.is_voice_enabled
      (voice_control.run toggle_args (control_world (Parsed (JObj sample_config)))).2
      = Ok (JBool (new_flag (mode_of toggle_args) old)).
Proof.
  apply (hooks_read_the_saved_state toggle_args
           (control_world (Parsed (JObj sample_config)))); [done|].
  apply toggle_sample_run.
Defined.

Lemma disable_sample_run :
  voice_control.run disable_args (control_world (Parsed (JObj sample_config))) =
    (0, (voice_control.run disable_args (control_world (Parsed (JObj sample_config)))).2).
Proof. by vm_compute. Qed.

Lemma disabled_voice_silences_hooks_witness :
  announce_factory_progress
    (voice_control.run disable_args (control_world (Parsed (JObj sample_config)))).2 = [] ∧
  notification.announce_notification
    (voice_control.run disable_args (control_world (Parsed (JObj sample_config)))).2 = [].
Proof.
  apply (disabled_voice_silences_hooks disable_args
           (control_world (Parsed (JObj sample_config))) _ (JBool false)).
  - done.
  - apply disable_sample_run.
  - by vm_compute.
  - reflexivity.
Defined.

Lemma toggle_twice_restores_witness :
  ∃ (w2 : world) (m : gmap string json) (old : json),
    voice_control.run toggle_args
      (voice_control.run toggle_args (control_world (Parsed (JObj sample_config)))).2
      = (0, w2) ∧
    config_file (control_world (Parsed (JObj sample_config))) = Parsed (JObj m) ∧
    is_voice_enabled (control_world (Parsed (JObj sample_config))) = Ok old ∧
    config_file w2 =
      Parsed (JObj (<["voice" := JObj (voice_control.voice_settings (truthy old))]> m)) ∧
    (∀ b, m !! "voice" = Some (JObj (voice_control.voice_settings b)) →
          config_file w2 = config_file (control_world (Parsed (JObj sample_config)))).
Proof.
  apply (toggle_twice_restores toggle_args
           (control_world (Parsed (JObj sample_config)))); [done|].
  apply toggle_sample_run.
Defined.


(** After the failed write the configuration is gone: the hooks fall back to
    their default and the utility reports invalid JSON. *)
Example full_disk_aftermath :
  config_file (voice_control.run toggle_args full_disk_world).2
    = Malformed "Expecting value: line 1 column 1 (char 0)" ∧
  is_voice_enabled (voice_control.run toggle_args full_disk_world).2 = Ok (JBool true) ∧
  (voice_control.run status_args (voice_control.run toggle_args full_disk_world).2).1 = 0.
Proof. by vm_compute. Qed.

Lemma non_object_config_exits_1_witness :
  ∃ msg,
    voice_control.run status_args (control_world (Parsed (JArr []))) =
      (1, voice_control.add_lines (control_world (Parsed (JArr [])))
            [ "❌ Unexpected error: " ++ msg;
              "🔧 Please check your factory configuration" ]).
Proof.
  apply (non_object_config_exits_1 status_args (control_world (Parsed (JArr []))) (JArr []));
    [reflexivity | by intros m].
Defined.

Lemma status_reports_what_hooks_read_witness :
  ∃ flag,
    is_voice_enabled (control_world (Parsed (JObj sample_config))) = Ok flag ∧
    flag = JBool false ∧
    voice_control.run status_args (control_world (Parsed (JObj sample_config))) =
      (0, voice_control.add_lines (control_world (Parsed (JObj sample_config)))
            (status_report (truthy flag))).
Proof.
  destruct (status_reports_what_hooks_read status_args
              (control_world (Parsed (JObj sample_config))) sample_config
              {[ "factoryNotifications" := JBool false; "legacy" := JInt 1 ]})
    as (flag & Hhook & Hflag & Hrun); [done | reflexivity | by vm_compute |].
  exists flag. split_and!; [done | | done].
  rewrite Hflag. by vm_compute.
Defined.

Lemma openai_speaks_the_message_witness :
  openai_tts.requests (openai_tts.main sample_tts_env) = ["Factory systems online"] ∧
  openai_tts.status (openai_tts.main sample_tts_env) = 0 ∧
  last (openai_tts.printed (openai_tts.main sample_tts_env))
    = Some "❌ Error: Error code: 401".
Proof.
  apply (openai_speaks_the_message sample_tts_env "openai_tts.py" "sk-test"
           "Factory systems online"); done.
Defined.
